(** * periodiq: the cron engine of [periodiq.py]

    A shallow embedding of [CronSpec] (parse, setup, replace, validate,
    next_valid_date, string conversion) and of the module-level helpers
    [expand_valid], [first], [format_cron], [format_interval],
    [group_intervals] and [monthesrange], followed by the properties
    established about them.

    Conventions of the embedding:
    - Python [int] is [Z]; Python [str] is [string], read as a sequence of
      code points below 256; a Python list of ints is [list Z]; the [set]
      built inside [expand_valid] is a [gset Z].
    - A Python call that may raise returns a [result]; the three exceptions
      that the modelled code can raise are [ValueError], [IndexError] and
      [KeyError].
    - A [pendulum] date is the record [DateTime.t] of its civil fields, in
      a zone without daylight-saving transitions (UTC).  Years are not
      bounded above. *)

From Stdlib Require Import ZArith List String Ascii Bool Lia DecimalString.
From Stdlib Require Import DecimalPos.
From stdpp Require Import gmap strings list fin_maps sorting.

Local Open Scope string_scope.
Local Open Scope Z_scope.

(** ** Exceptions *)

Inductive exn : Set := ValueError | IndexError | KeyError.

Inductive result (A : Type) : Type :=
| Ok (a : A)
| Raise (e : exn).

Arguments Ok {A} a.
Arguments Raise {A} e.

Definition bind {A B : Type} (r : result A) (k : A -> result B) : result B :=
  match r with
  | Ok a => k a
  | Raise e => Raise e
  end.

Notation "'let*' x ':=' e 'in' k" := (bind e (fun x => k))
  (at level 10, x name, e at level 100, k at level 200).

(** ** The Python built-ins used by the module *)

Module Py.

(** [str.isspace] on one character, for code points below 256. *)
Definition isspace (c : ascii) : bool :=
  let n := nat_of_ascii c in
  ((9 <=? n)%nat && (n <=? 13)%nat)
  || ((28 <=? n)%nat && (n <=? 32)%nat)
  || (n =? 133)%nat || (n =? 160)%nat.

Fixpoint lstrip (s : string) : string :=
  match s with
  | EmptyString => EmptyString
  | String c r => if isspace c then lstrip r else s
  end.

Fixpoint rstrip (s : string) : string :=
  match s with
  | EmptyString => EmptyString
  | String c r =>
      match rstrip r with
      | EmptyString => if isspace c then EmptyString else String c EmptyString
      | r' => String c r'
      end
  end.

(** [s.strip()] *)
Definition strip (s : string) : string := rstrip (lstrip s).

(** [s.startswith(p)] *)
Definition startswith (p s : string) : bool := String.prefix p s.

Definition starts_token (s : string) : bool :=
  match s with
  | EmptyString => false
  | String c _ => negb (isspace c)
  end.

(** [s.split()]: the maximal runs of non-whitespace characters. *)
Fixpoint split (s : string) : list string :=
  match s with
  | EmptyString => []
  | String c r =>
      if isspace c then split r
      else if starts_token r then
        match split r with
        | t :: ts => String c t :: ts
        | [] => [String c EmptyString]
        end
      else String c EmptyString :: split r
  end.

(** [s.split(sep)] for a one-character separator: empty pieces are kept. *)
Fixpoint split_on (sep : ascii) (s : string) : list string :=
  match s with
  | EmptyString => [EmptyString]
  | String c r =>
      if Ascii.eqb c sep then EmptyString :: split_on sep r
      else
        match split_on sep r with
        | t :: ts => String c t :: ts
        | [] => [String c EmptyString]
        end
  end.

(** [s.partition(sep)] for a one-character separator. *)
Fixpoint partition (sep : ascii) (s : string) : string * string * string :=
  match s with
  | EmptyString => (EmptyString, EmptyString, EmptyString)
  | String c r =>
      if Ascii.eqb c sep then (EmptyString, String sep EmptyString, r)
      else
        let '(a, b, d) := partition sep r in
        (String c a, b, d)
  end.

Definition lower_char (c : ascii) : ascii :=
  let n := nat_of_ascii c in
  if ((65 <=? n)%nat && (n <=? 90)%nat)
     || ((192 <=? n)%nat && (n <=? 222)%nat && negb (n =? 215)%nat)
  then ascii_of_nat (n + 32) else c.

(** [s.lower()] *)
Fixpoint lower (s : string) : string :=
  match s with
  | EmptyString => EmptyString
  | String c r => String (lower_char c) (lower r)
  end.

(** [s.replace(old, new)] for a non-empty [old]: the occurrences are found
    from the left and do not overlap; [skip] counts the characters of a
    match that are still to be dropped. *)
Fixpoint replace_from (old new : string) (skip : nat) (s : string) : string :=
  match s with
  | EmptyString => EmptyString
  | String c r =>
      match skip with
      | S k => replace_from old new k r
      | O =>
          if String.prefix old s
          then String.append new (replace_from old new (String.length old - 1) r)
          else String c (replace_from old new 0 r)
      end
  end.

Definition replace (old new s : string) : string := replace_from old new 0 s.

(** [sep.join(l)] *)
Fixpoint join (sep : string) (l : list string) : string :=
  match l with
  | [] => EmptyString
  | [x] => x
  | x :: r => String.append x (String.append sep (join sep r))
  end.

(** [str(n)] for an int. *)
Definition str (n : Z) : string := NilZero.string_of_int (Z.to_int n).

Definition isdigit (c : ascii) : bool :=
  let n := nat_of_ascii c in (48 <=? n)%nat && (n <=? 57)%nat.

Definition digit_value (c : ascii) : Z := Z.of_nat (nat_of_ascii c) - 48.

(** The digits of an int literal: decimal digits, where a single underscore
    may stand between two digits.  [prev] tells whether the previous
    character was a digit. *)
Fixpoint int_digits (acc : Z) (prev : bool) (s : string) : result Z :=
  match s with
  | EmptyString => if prev then Ok acc else Raise ValueError
  | String c r =>
      if isdigit c then int_digits (10 * acc + digit_value c) true r
      else if Ascii.eqb c "_" then
        if prev then int_digits acc false r else Raise ValueError
      else Raise ValueError
  end.

(** [int(s)] in base ten: surrounding whitespace is dropped, one sign is
    allowed, anything else raises [ValueError]. *)
Definition int (s : string) : result Z :=
  match strip s with
  | String "+" r => int_digits 0 false r
  | String "-" r => let* n := int_digits 0 false r in Ok (- n)
  | r => int_digits 0 false r
  end.

(** [range(start, stop, step)] as a list; a zero step raises. *)
Definition range_len (start stop step : Z) : nat :=
  if 0 <? step then Z.to_nat ((stop - start + step - 1) / step)
  else Z.to_nat ((start - stop - step - 1) / (- step)).

Definition range (start stop step : Z) : result (list Z) :=
  if step =? 0 then Raise ValueError
  else Ok (map (fun i => start + Z.of_nat i * step)
               (seq 0 (range_len start stop step))).

(** [range(start, stop)] *)
Definition range2 (start stop : Z) : list Z :=
  map (fun i => start + Z.of_nat i) (seq 0 (Z.to_nat (stop - start))).

(** [l[i]]: a negative index counts from the end. *)
Definition getitem {A : Type} (l : list A) (i : Z) : result A :=
  let n := Z.of_nat (length l) in
  let j := if i <? 0 then i + n else i in
  if (0 <=? j) && (j <? n) then
    match nth_error l (Z.to_nat j) with
    | Some x => Ok x
    | None => Raise IndexError
    end
  else Raise IndexError.

Definition slice_bound (n i : Z) : Z :=
  let j := if i <? 0 then i + n else i in
  Z.max 0 (Z.min n j).

(** [l[a:b]] *)
Definition getslice {A : Type} (l : list A) (a b : Z) : list A :=
  let n := Z.of_nat (length l) in
  let a' := slice_bound n a in
  let b' := slice_bound n b in
  firstn (Z.to_nat (b' - a')) (skipn (Z.to_nat a') l).

(** [x in l] for a list of ints. *)
Definition contains (x : Z) (l : list Z) : bool := existsb (Z.eqb x) l.

(** [sum(l)] *)
Definition sum (l : list Z) : Z := fold_left Z.add l 0.

(** [sorted(s)] for a set of ints. *)
Definition sorted (s : gset Z) : list Z := merge_sort Z.le (elements s).

End Py.

(** ** Calendar: [calendar.monthrange] and the [pendulum] date

    The library calls that [CronSpec] makes on a date: the field readers,
    [isoweekday], [replace(second=0, microsecond=0)], [add(minutes=k)],
    [add(hours=k)], [add(days=k)], and the comparison of two dates.  They
    follow the proleptic Gregorian calendar of Python's [datetime]. *)

Module DateTime.

Record t : Set := mk {
  year : Z;
  month : Z;
  day : Z;
  hour : Z;
  minute : Z;
  second : Z;
  microsecond : Z
}.

Definition isleap (y : Z) : bool :=
  (y mod 4 =? 0) && (negb (y mod 100 =? 0) || (y mod 400 =? 0)).

Definition days_in_month (y m : Z) : Z :=
  if m =? 2 then (if isleap y then 29 else 28)
  else if (m =? 4) || (m =? 6) || (m =? 9) || (m =? 11) then 30
  else 31.

Definition days_before_year (y : Z) : Z :=
  let p := y - 1 in
  p * 365 + p / 4 - p / 100 + p / 400.

Definition days_before_month (y m : Z) : Z :=
  Py.sum (map (days_in_month y) (Py.range2 1 m)).

(** [date(y, m, d).toordinal()] *)
Definition ymd2ord (y m d : Z) : Z :=
  days_before_year y + days_before_month y m + d.

Definition toordinal (n : t) : Z := ymd2ord (year n) (month n) (day n).

(** [n.isoweekday()]: Monday is 1 and Sunday is 7. *)
Definition isoweekday (n : t) : Z :=
  let r := toordinal n mod 7 in
  if r =? 0 then 7 else r.

(** [n.replace(second=0, microsecond=0)] *)
Definition replace_second_microsecond (n : t) : t :=
  mk (year n) (month n) (day n) (hour n) (minute n) 0 0.

Definition set_date (n : t) (y m d : Z) : t :=
  mk y m d (hour n) (minute n) (second n) (microsecond n).

(** The calendar day after and the calendar day before. *)
Definition next_day (n : t) : t :=
  if day n <? days_in_month (year n) (month n)
  then set_date n (year n) (month n) (day n + 1)
  else if month n <? 12 then set_date n (year n) (month n + 1) 1
  else set_date n (year n + 1) 1 1.

Definition prev_day (n : t) : t :=
  if 1 <? day n then set_date n (year n) (month n) (day n - 1)
  else if 1 <? month n
  then set_date n (year n) (month n - 1) (days_in_month (year n) (month n - 1))
  else set_date n (year n - 1) 12 31.

(** [n.add(days=k)] *)
Definition add_days (k : Z) (n : t) : t :=
  if 0 <=? k then Nat.iter (Z.to_nat k) next_day n
  else Nat.iter (Z.to_nat (- k)) prev_day n.

(** [n.add(hours=k)]: the hours beyond the day carry into the date. *)
Definition add_hours (k : Z) (n : t) : t :=
  let total := hour n + k in
  add_days (total / 24)
    (mk (year n) (month n) (day n) (total mod 24)
        (minute n) (second n) (microsecond n)).

(** [n.add(minutes=k)] *)
Definition add_minutes (k : Z) (n : t) : t :=
  let total := minute n + k in
  add_hours (total / 60)
    (mk (year n) (month n) (day n) (hour n) (total mod 60)
        (second n) (microsecond n)).

(** Comparison of two dates: field by field, the year first. *)
Definition lt (a b : t) : Prop :=
  year a < year b \/ (year a = year b /\
  (month a < month b \/ (month a = month b /\
  (day a < day b \/ (day a = day b /\
  (hour a < hour b \/ (hour a = hour b /\
  (minute a < minute b \/ (minute a = minute b /\
  (second a < second b \/ (second a = second b /\
   microsecond a < microsecond b))))))))))).

Definition le (a b : t) : Prop := lt a b \/ a = b.

(** The dates that [datetime] can hold (the upper bound on the year
    apart). *)
Definition valid (n : t) : Prop :=
  1 <= year n /\ 1 <= month n <= 12 /\
  1 <= day n <= days_in_month (year n) (month n) /\
  0 <= hour n <= 23 /\ 0 <= minute n <= 59 /\
  0 <= second n <= 59 /\ 0 <= microsecond n <= 999999.

End DateTime.

(** [calendar.monthrange(year, month)]: the weekday of the first day of the
    month (Monday is 0) and the number of days of the month, for a month
    between 1 and 12. *)
Definition monthrange (year month : Z) : Z * Z :=
  ((DateTime.ymd2ord year month 1 + 6) mod 7,
   DateTime.days_in_month year month).

(** ** Module-level helpers of [periodiq.py] *)

(** One comma-separated piece of a field: [range[/step]]. *)
Definition expand_interval (interval : string) : result (list Z) :=
  let '(range_, _, step) := Py.partition "/" interval in
  let* step := (if String.eqb "" step then Ok 1 else Py.int step) in
  let '(start, _, end_) := Py.partition "-" range_ in
  let* start := Py.int start in
  let* end_ := (if String.eqb "" end_ then Ok start else Py.int end_) in
  Py.range start (end_ + 1) step.

(** The [for interval in intervals] loop, [valid] being the set built so
    far. *)
Fixpoint expand_intervals (valid : gset Z) (intervals : list string)
  : result (gset Z) :=
  match intervals with
  | [] => Ok valid
  | interval :: rest =>
      let* r := expand_interval interval in
      expand_intervals (valid ∪ list_to_set r) rest
  end.

Definition expand_valid (value : string) (min max : Z) : result (list Z) :=
  let value :=
    Py.replace "*" (String.append (Py.str min) (String.append "-" (Py.str max)))
               value in
  let intervals := Py.split_on "," value in
  let* valid := expand_intervals ∅ intervals in
  Ok (Py.sorted valid).

(** [first(function, iterable)] *)
Fixpoint first {A : Type} (function : A -> bool) (iterable : list A)
  : result A :=
  match iterable with
  | [] => Raise ValueError
  | x :: rest => if function x then Ok x else first function rest
  end.

(** The loop of the generator [group_intervals], after its first two
    assignments; the result lists what it yields. *)
Fixpoint group_intervals_loop (start last : Z) (values : list Z)
  : list (Z * Z) :=
  match values with
  | [] => [(start, last)]
  | v :: rest =>
      let diff := v - last in
      if diff >? 1 then (start, last) :: group_intervals_loop v v rest
      else group_intervals_loop start v rest
  end.

Definition group_intervals (values : list Z) : result (list (Z * Z)) :=
  let* last := Py.getitem values 0 in
  Ok (group_intervals_loop last last (tail values)).

Definition format_interval (start stop : Z) (names : option (list string))
  : result string :=
  if stop =? start then
    match names with
    | None => Ok (Py.str start)
    | Some l => Py.getitem l start
    end
  else
    match names with
    | Some (x :: l) => Ok (Py.join "," (Py.getslice (x :: l) start (stop + 1)))
    | _ => Ok (String.append (Py.str start) (String.append "-" (Py.str stop)))
    end.

Fixpoint format_intervals (groups : list (Z * Z)) (names : option (list string))
  : result (list string) :=
  match groups with
  | [] => Ok []
  | (start, stop) :: rest =>
      let* s := format_interval start stop names in
      let* r := format_intervals rest names in
      Ok (s :: r)
  end.

Definition format_cron (values : list Z) (min_ max_ : Z)
  (names : option (list string)) : result string :=
  let* v0 := Py.getitem values 0 in
  let* full :=
    (if min_ =? v0
     then let* vl := Py.getitem values (-1) in Ok (vl =? max_)
     else Ok false) in
  if full then Ok "*"
  else
    let* groups := group_intervals values in
    let* parts := format_intervals groups names in
    Ok (Py.join "," parts).

Definition monthesrange (start_year start_month end_month : Z) : list Z :=
  let start_month := start_month - 1 in
  let end_month := end_month - 1 in
  map (fun m => snd (monthrange (start_year + m / 12) (1 + m mod 12)))
      (Py.range2 start_month end_month).

(** ** The class [CronSpec] *)

Module CronSpec.

(** The attributes of an instance. *)
Record t : Type := mk {
  minute : list Z;
  minute_e : list Z;
  hour : list Z;
  hour_e : list Z;
  is_dom_restricted : bool;
  dom : list Z;
  month : list Z;
  month_e : list Z;
  is_dow_restricted : bool;
  dow : list Z;
  dow_e : list Z;
  parsed_from : option string
}.

(** Attribute assignments [self.x = v]. *)
Definition set_minute (v : list Z) (s : t) : t :=
  mk v (minute_e s) (hour s) (hour_e s) (is_dom_restricted s) (dom s)
     (month s) (month_e s) (is_dow_restricted s) (dow s) (dow_e s)
     (parsed_from s).
Definition set_minute_e (v : list Z) (s : t) : t :=
  mk (minute s) v (hour s) (hour_e s) (is_dom_restricted s) (dom s)
     (month s) (month_e s) (is_dow_restricted s) (dow s) (dow_e s)
     (parsed_from s).
Definition set_hour (v : list Z) (s : t) : t :=
  mk (minute s) (minute_e s) v (hour_e s) (is_dom_restricted s) (dom s)
     (month s) (month_e s) (is_dow_restricted s) (dow s) (dow_e s)
     (parsed_from s).
Definition set_hour_e (v : list Z) (s : t) : t :=
  mk (minute s) (minute_e s) (hour s) v (is_dom_restricted s) (dom s)
     (month s) (month_e s) (is_dow_restricted s) (dow s) (dow_e s)
     (parsed_from s).
Definition set_is_dom_restricted (v : bool) (s : t) : t :=
  mk (minute s) (minute_e s) (hour s) (hour_e s) v (dom s)
     (month s) (month_e s) (is_dow_restricted s) (dow s) (dow_e s)
     (parsed_from s).
Definition set_dom (v : list Z) (s : t) : t :=
  mk (minute s) (minute_e s) (hour s) (hour_e s) (is_dom_restricted s) v
     (month s) (month_e s) (is_dow_restricted s) (dow s) (dow_e s)
     (parsed_from s).
Definition set_month (v : list Z) (s : t) : t :=
  mk (minute s) (minute_e s) (hour s) (hour_e s) (is_dom_restricted s) (dom s)
     v (month_e s) (is_dow_restricted s) (dow s) (dow_e s)
     (parsed_from s).
Definition set_month_e (v : list Z) (s : t) : t :=
  mk (minute s) (minute_e s) (hour s) (hour_e s) (is_dom_restricted s) (dom s)
     (month s) v (is_dow_restricted s) (dow s) (dow_e s)
     (parsed_from s).
Definition set_is_dow_restricted (v : bool) (s : t) : t :=
  mk (minute s) (minute_e s) (hour s) (hour_e s) (is_dom_restricted s) (dom s)
     (month s) (month_e s) v (dow s) (dow_e s)
     (parsed_from s).
Definition set_dow (v : list Z) (s : t) : t :=
  mk (minute s) (minute_e s) (hour s) (hour_e s) (is_dom_restricted s) (dom s)
     (month s) (month_e s) (is_dow_restricted s) v (dow_e s)
     (parsed_from s).
Definition set_dow_e (v : list Z) (s : t) : t :=
  mk (minute s) (minute_e s) (hour s) (hour_e s) (is_dom_restricted s) (dom s)
     (month s) (month_e s) (is_dow_restricted s) (dow s) v
     (parsed_from s).
Definition set_parsed_from (v : option string) (s : t) : t :=
  mk (minute s) (minute_e s) (hour s) (hour_e s) (is_dom_restricted s) (dom s)
     (month s) (month_e s) (is_dow_restricted s) (dow s) (dow_e s)
     v.

(** A method that mutates [self] and may raise: it returns the outcome and
    the state in which it leaves the object, also when it raises. *)
Definition method (A : Type) : Type := t -> result A * t.

Definition ret {A : Type} (a : A) : method A := fun s => (Ok a, s).

Definition seq {A B : Type} (c : method A) (k : A -> method B) : method B :=
  fun s =>
    match c s with
    | (Ok a, s') => k a s'
    | (Raise e, s') => (Raise e, s')
    end.

Definition assign (f : t -> t) : method unit := fun s => (Ok tt, f s).

Definition eval {A : Type} (r : result A) : method A := fun s => (r, s).

Definition when_given {A : Type} (o : option A) (k : A -> method unit)
  : method unit :=
  match o with
  | Some a => k a
  | None => ret tt
  end.

Notation "c1 ;;; c2" := (seq c1 (fun _ => c2))
  (at level 100, c2 at level 200, right associativity).
Notation "x <-- c1 ;;; c2" := (seq c1 (fun x => c2))
  (at level 100, c1 at next level, c2 at level 200, right associativity).

Definition setup (m h dom month dow : option (list Z)) : method unit :=
  when_given m (fun m =>
    assign (set_minute m) ;;;
    m0 <-- eval (Py.getitem m 0) ;;;
    assign (set_minute_e (m ++ [60 + m0]))) ;;;
  when_given h (fun h =>
    assign (set_hour h) ;;;
    h0 <-- eval (Py.getitem h 0) ;;;
    assign (set_hour_e (h ++ [24 + h0]))) ;;;
  when_given dom (fun dom =>
    assign (set_is_dom_restricted (Z.of_nat (length dom) <? 31)) ;;;
    assign (set_dom dom)) ;;;
  when_given month (fun month =>
    assign (set_month month) ;;;
    month0 <-- eval (Py.getitem month 0) ;;;
    assign (set_month_e (month ++ [12 + month0]))) ;;;
  when_given dow (fun dow =>
    assign (set_is_dow_restricted (Z.of_nat (length dow) <? 7)) ;;;
    assign (set_dow dow) ;;;
    dow0 <-- eval (Py.getitem dow 0) ;;;
    assign (set_dow_e (dow ++ [7 + dow0]))) ;;;
  assign (set_parsed_from None).

(** The object as [__init__] receives it.  No attribute is set yet; the
    five arguments of [__init__] are lists here, so that [setup] assigns
    every attribute before any is read. *)
Definition blank : t := mk [] [] [] [] false [] [] [] false [] [] None.

Definition __init__ (m h dom month dow : list Z) (parsed_from : option string)
  : result t :=
  match setup (Some m) (Some h) (Some dom) (Some month) (Some dow) blank with
  | (Ok _, self) => Ok (set_parsed_from parsed_from self)
  | (Raise e, _) => Raise e
  end.

Definition _named_spec : gmap string string :=
  list_to_map [
    ("@yearly", "0 0 1 1 *");
    ("@annually", "0 0 1 1 *");
    ("@monthly", "0 0 1 * *");
    ("@weekly", "0 0 * * 0");
    ("@daily", "0 0 * * *");
    ("@midnight", "0 0 * * *");
    ("@hourly", "0 * * * *")
  ].

Definition weekdays : list string :=
  ["sun"; "mon"; "tue"; "wed"; "thu"; "fri"; "sat"].

Definition enumerate {A : Type} (l : list A) : list (Z * A) :=
  combine (map Z.of_nat (List.seq 0 (length l))) l.

(** The five fields of the text, the alias replaced. *)
Definition fields_of (spec : string) : result (list string) :=
  let fields := Py.strip spec in
  let* fields :=
    (if Py.startswith "@" fields
     then match _named_spec !! fields with
          | Some v => Ok v
          | None => Raise KeyError
          end
     else Ok fields) in
  Ok (Py.split fields).

Definition replace_weekdays (dow : string) : string :=
  fold_left (fun dow '(i, day) => Py.replace day (Py.str i) dow)
            (enumerate weekdays) dow.

Definition parse (spec : string) : result t :=
  let* fields := fields_of spec in
  let* dow := Py.getitem fields 4 in
  let dow := Py.lower dow in
  let dow := replace_weekdays dow in
  let* f0 := Py.getitem fields 0 in
  let* m := expand_valid f0 0 59 in
  let* f1 := Py.getitem fields 1 in
  let* h := expand_valid f1 0 23 in
  let* f2 := Py.getitem fields 2 in
  let* dom := expand_valid f2 1 31 in
  let* f3 := Py.getitem fields 3 in
  let* month := expand_valid f3 1 12 in
  let* dow := expand_valid dow 0 7 in
  __init__ m h dom month dow (Some spec).

Definition astuple (self : t) :=
  (minute self, hour self, dom self, month self, dow self).

Definition __eq__ (self other : t) : bool :=
  bool_decide (astuple self = astuple other).

Definition day_names : list string :=
  ["Sun"; "Mon"; "Tue"; "Wed"; "Thu"; "Fri"; "Sat"; "Sun"].

(** The text that [__str__] derives from the five sets. *)
Definition derived_text (self : t) : result string :=
  let* a := format_cron (minute self) 0 59 None in
  let* b := format_cron (hour self) 0 23 None in
  let* c := format_cron (dom self) 1 31 None in
  let* d := format_cron (month self) 1 12 None in
  let* e := format_cron (dow self) 0 7 (Some day_names) in
  Ok (Py.join " " [a; b; c; d; e]).

Definition __str__ (self : t) : result string :=
  match parsed_from self with
  | Some text => Ok text
  | None => derived_text self
  end.

Definition validate (self : t) (date : DateTime.t) : bool :=
  if negb (Py.contains (DateTime.minute date) (minute self)) then false
  else if negb (Py.contains (DateTime.hour date) (hour self)) then false
  else if negb (Py.contains (DateTime.month date) (month self)) then false
  else
    let weekday := DateTime.isoweekday date in
    if is_dow_restricted self && is_dom_restricted self then
      if negb (Py.contains (DateTime.day date) (dom self)
               || Py.contains weekday (dow self))
      then false else true
    else
      if negb (Py.contains (DateTime.day date) (dom self)) then false
      else if negb (Py.contains weekday (dow self)) then false
      else true.

(** The list [dom_e] that [next_valid_date] builds for a month of
    [month_days] days. *)
Definition dom_e (self : t) (month_days : Z) : result (list Z) :=
  let kept := filter (fun x => x <=? month_days) (dom self) in
  let* dom0 := Py.getitem (dom self) 0 in
  Ok (kept ++ [month_days + dom0])%list.

Definition next_valid_date (self : t) (last : DateTime.t)
  : result DateTime.t :=
  let n := DateTime.replace_second_microsecond last in
  let n := DateTime.add_minutes 1 n in
  let* x := first (fun x => x >=? DateTime.minute n) (minute_e self) in
  let delay_m := x - DateTime.minute n in
  let n := DateTime.add_minutes delay_m n in
  let* x := first (fun x => x >=? DateTime.hour n) (hour_e self) in
  let delay_h := x - DateTime.hour n in
  let n := DateTime.add_hours delay_h n in
  let last_dow := DateTime.isoweekday n mod 7 in
  let* x := first (fun x => x >=? last_dow) (dow_e self) in
  let delay_dow := x - last_dow in
  let month_days := snd (monthrange (DateTime.year n) (DateTime.month n)) in
  let* dom_e := dom_e self month_days in
  let* x := first (fun x => x >=? DateTime.day n) dom_e in
  let delay_dom := x - DateTime.day n in
  let delay_d :=
    if is_dow_restricted self && is_dom_restricted self
    then Z.min delay_dow delay_dom
    else if is_dow_restricted self then delay_dow else delay_dom in
  let n := DateTime.add_days delay_d n in
  let* next_month := first (fun x => x >=? DateTime.month n) (month_e self) in
  let delay_d :=
    Py.sum (monthesrange (DateTime.year n) (DateTime.month n) next_month) in
  let n := DateTime.add_days delay_d n in
  Ok n.

(** *** Instances as objects: [replace]

    [replace] copies the receiver and mutates the copy.  Instances live in
    a store under their identity; the lists they hold are never updated in
    place by this module, so they are kept by value. *)

Definition deepcopy (self : positive) (store : gmap positive t)
  : option (positive * gmap positive t) :=
  match store !! self with
  | Some obj =>
      let copy := fresh (base.dom store) in
      Some (copy, <[copy := obj]> store)
  | None => None
  end.

(** [self.replace(m, h, dom, month, dow)]: the outcome and the store that
    the call leaves.  [None] stands for a receiver that is not an object of
    the store. *)
Definition replace (self : positive) (m h dom month dow : option (list Z))
  (store : gmap positive t) : option (result positive * gmap positive t) :=
  match deepcopy self store with
  | Some (copy, store) =>
      match store !! copy with
      | Some obj =>
          match setup m h dom month dow obj with
          | (Ok _, obj') => Some (Ok copy, <[copy := obj']> store)
          | (Raise e, obj') => Some (Raise e, <[copy := obj']> store)
          end
      | None => None
      end
  | None => None
  end.

End CronSpec.

(** [cron(spec)] *)
Definition cron (spec : string) : result CronSpec.t := CronSpec.parse spec.

(** ** The data model, as predicates on an instance *)

(** Every value of the list lies in the field's domain. *)
Definition within (lo hi : Z) (l : list Z) : Prop :=
  Forall (fun x => lo <= x <= hi) l.

(** [ext] is [base] followed by one sentinel: the first element of [base]
    plus the field's period. *)
Definition extended (period : Z) (base ext : list Z) : Prop :=
  exists x0, Py.getitem base 0 = Ok x0 /\ ext = (base ++ [period + x0])%list.

(** An instance whose five sets lie in their domains and whose extended
    lists are the ones [setup] derives. *)
Record well_formed (c : CronSpec.t) : Prop := {
  wf_minute : within 0 59 (CronSpec.minute c);
  wf_minute_e : extended 60 (CronSpec.minute c) (CronSpec.minute_e c);
  wf_hour : within 0 23 (CronSpec.hour c);
  wf_hour_e : extended 24 (CronSpec.hour c) (CronSpec.hour_e c);
  wf_dom : within 1 31 (CronSpec.dom c);
  wf_month : within 1 12 (CronSpec.month c);
  wf_month_e : extended 12 (CronSpec.month c) (CronSpec.month_e c);
  wf_dow : within 0 7 (CronSpec.dow c);
  wf_dow_e : extended 7 (CronSpec.dow c) (CronSpec.dow_e c)
}.

(** The two flags as [setup] computes them. *)
Definition flags_by_length (c : CronSpec.t) : Prop :=
  CronSpec.is_dom_restricted c = (Z.of_nat (length (CronSpec.dom c)) <? 31)
  /\ CronSpec.is_dow_restricted c = (Z.of_nat (length (CronSpec.dow c)) <? 7).

(** The list holds every value of the domain. *)
Definition covers (lo hi : Z) (l : list Z) : Prop :=
  forall x, lo <= x <= hi -> In x l.

(** Order and agreement on the calendar day of two dates, and agreement on
    the time of day. *)
Definition date_lt (a b : DateTime.t) : Prop :=
  DateTime.year a < DateTime.year b \/ (DateTime.year a = DateTime.year b /\
  (DateTime.month a < DateTime.month b \/
   (DateTime.month a = DateTime.month b /\ DateTime.day a < DateTime.day b))).


Definition same_time (a b : DateTime.t) : Prop :=
  DateTime.hour a = DateTime.hour b /\ DateTime.minute a = DateTime.minute b
  /\ DateTime.second a = DateTime.second b
  /\ DateTime.microsecond a = DateTime.microsecond b.


(** The day of the month exists in its month. *)
Definition date_valid (n : DateTime.t) : Prop :=
  1 <= DateTime.month n <= 12
  /\ 1 <= DateTime.day n
       <= DateTime.days_in_month (DateTime.year n) (DateTime.month n).

(** The values that a list of intervals stands for, and intervals that are
    non-empty, ascending, and more than one apart from each other. *)
Definition interval_values (groups : list (Z * Z)) : list Z :=
  flat_map (fun g => Py.range2 (fst g) (snd g + 1)) groups.

Fixpoint separated (groups : list (Z * Z)) : Prop :=
  match groups with
  | [] => True
  | g :: rest =>
      fst g <= snd g
      /\ match rest with
         | [] => True
         | g' :: _ => snd g + 1 < fst g'
         end
      /\ separated rest
  end.

(** Every character of the string satisfies the test. *)
Fixpoint every_char (P : ascii -> bool) (s : string) : bool :=
  match s with
  | EmptyString => true
  | String c r => P c && every_char P r
  end.

(** The text that [format_interval] gives an interval when no names are
    passed. *)
Definition interval_text (g : Z * Z) : string :=
  if snd g =? fst g then Py.str (fst g)
  else String.append (Py.str (fst g)) (String.append "-" (Py.str (snd g))).

(** Shorthand for a date at a full minute. *)
Definition at_minute (y m d h mi : Z) : DateTime.t :=
  DateTime.mk y m d h mi 0 0.

(** * Properties *)

(** ** The result monad and the built-ins *)

Lemma bind_Ok {A B : Type} (r : result A) (k : A -> result B) (b : B) :
  bind r k = Ok b -> exists a, r = Ok a /\ k a = Ok b.
Proof.
  destruct r as [a|e]; simpl; intros H; [eauto | discriminate].
Qed.

Lemma getitem_cons_0 {A : Type} (x : A) (l : list A) :
  Py.getitem (x :: l) 0 = Ok x.
Proof.
  unfold Py.getitem.
  replace (0 <? 0) with false by reflexivity.
  assert (H : (0 <=? 0) && (0 <? Z.of_nat (length (x :: l))) = true).
  { apply andb_true_intro; split; [reflexivity | apply Z.ltb_lt; simpl; lia]. }
  rewrite H. reflexivity.
Qed.

Lemma getitem_nil_0 {A : Type} : Py.getitem (@nil A) 0 = Raise IndexError.
Proof. reflexivity. Qed.

Lemma getitem_0_Ok {A : Type} (l : list A) (x : A) :
  Py.getitem l 0 = Ok x -> exists r, l = x :: r.
Proof.
  destruct l as [|y r].
  - rewrite getitem_nil_0. discriminate.
  - rewrite getitem_cons_0. intros [= ->]. eauto.
Qed.

Lemma contains_In (x : Z) (l : list Z) : Py.contains x l = true <-> In x l.
Proof.
  unfold Py.contains. rewrite existsb_exists. split.
  - intros (y & Hy & E). apply Z.eqb_eq in E. now subst.
  - intros H. exists x. split; [assumption | apply Z.eqb_refl].
Qed.

(** ** [first] *)

Lemma first_Ok_ge (x : Z) (l : list Z) (y : Z) :
  first (fun v => v >=? x) l = Ok y -> x <= y /\ In y l.
Proof.
  induction l as [|a l IH]; simpl; [discriminate|].
  destruct (a >=? x) eqn:E.
  - intros [= <-]. split; [apply Z.geb_le in E; lia | now left].
  - intros H. destruct (IH H). split; [assumption | now right].
Qed.

Lemma first_sentinel (x s : Z) (l : list Z) :
  x <= s -> exists y, first (fun v => v >=? x) (l ++ [s]) = Ok y.
Proof.
  intros Hs. induction l as [|a l IH]; simpl.
  - assert (E : (s >=? x) = true) by (apply Z.geb_le; lia).
    rewrite E. eauto.
  - destruct (a >=? x); eauto.
Qed.

Lemma first_extended (period lo hi x : Z) (base ext : list Z) :
  within lo hi base -> extended period base ext -> x <= period + lo ->
  exists y, first (fun v => v >=? x) ext = Ok y /\ x <= y.
Proof.
  intros Hin (x0 & H0 & ->) Hx.
  apply getitem_0_Ok in H0 as (r & ->).
  apply Forall_inv in Hin.
  destruct (first_sentinel x (period + x0) (x0 :: r)) as (y & Hy); [lia|].
  exists y. split; [assumption | apply (first_Ok_ge _ _ _ Hy)].
Qed.

(** ** Calendar arithmetic *)

Lemma days_in_month_bounds (y m : Z) : 28 <= DateTime.days_in_month y m <= 31.
Proof.
  unfold DateTime.days_in_month.
  destruct (m =? 2); [destruct (DateTime.isleap y); lia|].
  destruct ((m =? 4) || (m =? 6) || (m =? 9) || (m =? 11)); lia.
Qed.







Lemma same_time_trans (a b c : DateTime.t) :
  same_time a b -> same_time b c -> same_time a c.
Proof. unfold same_time. lia. Qed.

Lemma next_day_later (n : DateTime.t) :
  date_lt n (DateTime.next_day n) /\ same_time n (DateTime.next_day n).
Proof.
  unfold DateTime.next_day, date_lt, same_time.
  destruct (DateTime.day n <? _) eqn:Ed; simpl; [lia|].
  destruct (DateTime.month n <? 12) eqn:Em; simpl; [|lia].
  apply Z.ltb_lt in Em. lia.
Qed.

Lemma next_day_valid (n : DateTime.t) :
  date_valid n -> date_valid (DateTime.next_day n).
Proof.
  unfold DateTime.next_day, date_valid. intros [Hm Hd].
  destruct (DateTime.day n <? _) eqn:Ed; simpl.
  - apply Z.ltb_lt in Ed. lia.
  - destruct (DateTime.month n <? 12) eqn:Em; simpl.
    + apply Z.ltb_lt in Em.
      pose proof (days_in_month_bounds (DateTime.year n) (DateTime.month n + 1)).
      lia.
    + pose proof (days_in_month_bounds (DateTime.year n + 1) 1). lia.
Qed.

Lemma prev_day_valid (n : DateTime.t) :
  date_valid n -> date_valid (DateTime.prev_day n).
Proof.
  unfold DateTime.prev_day, date_valid. intros [Hm Hd].
  destruct (1 <? DateTime.day n) eqn:Ed; simpl.
  - apply Z.ltb_lt in Ed. lia.
  - destruct (1 <? DateTime.month n) eqn:Em; simpl.
    + apply Z.ltb_lt in Em.
      pose proof (days_in_month_bounds (DateTime.year n) (DateTime.month n - 1)).
      lia.
    + pose proof (days_in_month_bounds (DateTime.year n - 1) 12).
      change (DateTime.days_in_month (DateTime.year n - 1) 12) with 31 in *.
      lia.
Qed.

Lemma prev_day_same_time (n : DateTime.t) : same_time n (DateTime.prev_day n).
Proof.
  unfold DateTime.prev_day, same_time.
  destruct (1 <? DateTime.day n); simpl; [lia|].
  destruct (1 <? DateTime.month n); simpl; lia.
Qed.


Lemma iter_valid (f : DateTime.t -> DateTime.t) (k : nat) (n : DateTime.t) :
  (forall x, date_valid x -> date_valid (f x)) ->
  date_valid n -> date_valid (Nat.iter k f n).
Proof. intros Hf Hn. induction k; simpl; auto. Qed.

Lemma iter_same_time (f : DateTime.t -> DateTime.t) (k : nat) (n : DateTime.t) :
  (forall x, same_time x (f x)) -> same_time n (Nat.iter k f n).
Proof.
  intros Hf. induction k; simpl.
  - unfold same_time. lia.
  - eapply same_time_trans; [eassumption | apply Hf].
Qed.

Lemma add_days_same_time (k : Z) (n : DateTime.t) :
  same_time n (DateTime.add_days k n).
Proof.
  unfold DateTime.add_days. destruct (0 <=? k).
  - apply iter_same_time. intros x. apply next_day_later.
  - apply iter_same_time. apply prev_day_same_time.
Qed.

Lemma add_days_valid (k : Z) (n : DateTime.t) :
  date_valid n -> date_valid (DateTime.add_days k n).
Proof.
  unfold DateTime.add_days. destruct (0 <=? k).
  - apply iter_valid, next_day_valid.
  - apply iter_valid, prev_day_valid.
Qed.

Lemma add_days_0 (n : DateTime.t) : DateTime.add_days 0 n = n.
Proof. reflexivity. Qed.




Lemma add_hours_fields (k : Z) (n : DateTime.t) :
  DateTime.hour (DateTime.add_hours k n) = (DateTime.hour n + k) mod 24
  /\ DateTime.minute (DateTime.add_hours k n) = DateTime.minute n
  /\ DateTime.second (DateTime.add_hours k n) = DateTime.second n
  /\ DateTime.microsecond (DateTime.add_hours k n) = DateTime.microsecond n.
Proof.
  unfold DateTime.add_hours.
  match goal with |- context [DateTime.add_days ?q ?m] =>
    destruct (add_days_same_time q m) as (Hh & Hm & Hs & Hu) end.
  simpl in *. lia.
Qed.

Lemma add_hours_valid (k : Z) (n : DateTime.t) :
  date_valid n -> date_valid (DateTime.add_hours k n).
Proof.
  intros Hn. unfold DateTime.add_hours. apply add_days_valid. exact Hn.
Qed.



Lemma add_minutes_fields (k : Z) (n : DateTime.t) :
  DateTime.minute (DateTime.add_minutes k n) = (DateTime.minute n + k) mod 60
  /\ DateTime.hour (DateTime.add_minutes k n)
     = (DateTime.hour n + (DateTime.minute n + k) / 60) mod 24
  /\ DateTime.second (DateTime.add_minutes k n) = DateTime.second n
  /\ DateTime.microsecond (DateTime.add_minutes k n) = DateTime.microsecond n.
Proof.
  unfold DateTime.add_minutes.
  match goal with |- context [DateTime.add_hours ?q ?m] =>
    destruct (add_hours_fields q m) as (Hh & Hm & Hs & Hu) end.
  simpl in *. lia.
Qed.

Lemma add_minutes_valid (k : Z) (n : DateTime.t) :
  date_valid n -> date_valid (DateTime.add_minutes k n).
Proof.
  intros Hn. unfold DateTime.add_minutes. apply add_hours_valid. exact Hn.
Qed.



(** ** [sum] and [monthesrange] *)



(** ** [next_valid_date]: the result comes after its argument *)



(** ** [next_valid_date]: every search finds a value *)




(** ** Construction: [__init__], [parse], [setup] *)

Ltac unfold_setup :=
  unfold CronSpec.setup, CronSpec.when_given, CronSpec.seq, CronSpec.assign,
    CronSpec.eval, CronSpec.ret.

Lemma init_Ok (m h dom month dow : list Z) (pf : option string)
  (c : CronSpec.t) :
  CronSpec.__init__ m h dom month dow pf = Ok c ->
  exists m0 h0 month0 dow0,
    Py.getitem m 0 = Ok m0 /\ Py.getitem h 0 = Ok h0
    /\ Py.getitem month 0 = Ok month0 /\ Py.getitem dow 0 = Ok dow0
    /\ c = CronSpec.mk m (m ++ [60 + m0]) h (h ++ [24 + h0])
             (Z.of_nat (length dom) <? 31) dom
             month (month ++ [12 + month0])
             (Z.of_nat (length dow) <? 7) dow (dow ++ [7 + dow0]) pf.
Proof.
  unfold CronSpec.__init__. unfold_setup.
  destruct (Py.getitem m 0) as [m0|] eqn:Em; [|discriminate].
  destruct (Py.getitem h 0) as [h0|] eqn:Eh; [|discriminate].
  destruct (Py.getitem month 0) as [month0|] eqn:Emo; [|discriminate].
  destruct (Py.getitem dow 0) as [dow0|] eqn:Ew; [|discriminate].
  cbn. intros [= <-]. exists m0, h0, month0, dow0. repeat split; reflexivity.
Qed.


Lemma init_fields (m h dom month dow : list Z) (pf : option string)
  (c : CronSpec.t) :
  CronSpec.__init__ m h dom month dow pf = Ok c ->
  CronSpec.minute c = m /\ CronSpec.hour c = h /\ CronSpec.dom c = dom
  /\ CronSpec.month c = month /\ CronSpec.dow c = dow
  /\ CronSpec.parsed_from c = pf.
Proof.
  intros H.
  apply init_Ok in H as (m0 & h0 & month0 & dow0 & _ & _ & _ & _ & ->).
  simpl. repeat split; reflexivity.
Qed.

Lemma getitem_Ok_length {A : Type} (l : list A) (i : Z) (x : A) :
  0 <= i -> Py.getitem l i = Ok x -> (Z.to_nat i < length l)%nat.
Proof.
  intros Hi. unfold Py.getitem.
  assert (E : (i <? 0) = false) by (apply Z.ltb_ge; exact Hi). rewrite E.
  destruct ((0 <=? i) && (i <? Z.of_nat (length l))) eqn:Eb; [|discriminate].
  intros _. apply andb_prop in Eb as [_ Eb]. apply Z.ltb_lt in Eb. lia.
Qed.

Lemma parse_Ok (x : string) (c : CronSpec.t) :
  CronSpec.parse x = Ok c ->
  exists fields f0 f1 f2 f3 f4 m h dom month dow,
    CronSpec.fields_of x = Ok fields
    /\ Py.getitem fields 0 = Ok f0 /\ Py.getitem fields 1 = Ok f1
    /\ Py.getitem fields 2 = Ok f2 /\ Py.getitem fields 3 = Ok f3
    /\ Py.getitem fields 4 = Ok f4
    /\ expand_valid f0 0 59 = Ok m /\ expand_valid f1 0 23 = Ok h
    /\ expand_valid f2 1 31 = Ok dom /\ expand_valid f3 1 12 = Ok month
    /\ expand_valid (CronSpec.replace_weekdays (Py.lower f4)) 0 7 = Ok dow
    /\ CronSpec.__init__ m h dom month dow (Some x) = Ok c.
Proof.
  unfold CronSpec.parse. intros H.
  apply bind_Ok in H as (fields & Hf & H).
  apply bind_Ok in H as (f4 & H4 & H).
  apply bind_Ok in H as (f0 & H0 & H).
  apply bind_Ok in H as (m & Hm & H).
  apply bind_Ok in H as (f1 & H1 & H).
  apply bind_Ok in H as (h & Hh & H).
  apply bind_Ok in H as (f2 & H2 & H).
  apply bind_Ok in H as (dom & Hd & H).
  apply bind_Ok in H as (f3 & H3 & H).
  apply bind_Ok in H as (month & Hmo & H).
  apply bind_Ok in H as (dow & Hw & H).
  exists fields, f0, f1, f2, f3, f4, m, h, dom, month, dow.
  repeat split; assumption.
Qed.


Lemma setup_flags (m h dom month dow : option (list Z)) (s : CronSpec.t) :
  flags_by_length s ->
  flags_by_length (CronSpec.setup m h dom month dow s).2.
Proof.
  unfold flags_by_length. intros [Hd Hw]. unfold_setup.
  destruct m as [m|], h as [h|], dom as [dom|], month as [month|],
    dow as [dow|];
    repeat match goal with
           | |- context [Py.getitem ?l 0] => destruct (Py.getitem l 0)
           end;
    cbn; split; solve [reflexivity | assumption].
Qed.

(** ** The value sets that [expand_valid] returns *)

Lemma sorted_NoDup (s : gset Z) : NoDup (Py.sorted s).
Proof.
  unfold Py.sorted. rewrite merge_sort_Permutation. apply NoDup_elements.
Qed.

Lemma sorted_ascending (s : gset Z) : StronglySorted Z.le (Py.sorted s).
Proof. unfold Py.sorted. apply StronglySorted_merge_sort; apply _. Qed.

Lemma expand_valid_Ok (value : string) (lo hi : Z) (l : list Z) :
  expand_valid value lo hi = Ok l -> NoDup l /\ StronglySorted Z.le l.
Proof.
  unfold expand_valid. intros H.
  apply bind_Ok in H as (s & _ & [= <-]).
  split; [apply sorted_NoDup | apply sorted_ascending].
Qed.

(** ** Counting the values of a domain *)

Lemma In_range2 (a b x : Z) : In x (Py.range2 a b) <-> a <= x < b.
Proof.
  unfold Py.range2. rewrite in_map_iff. split.
  - intros (i & <- & Hi). apply in_seq in Hi. lia.
  - intros Hx. exists (Z.to_nat (x - a)). split; [lia|].
    apply in_seq. lia.
Qed.

Lemma NoDup_range2 (a b : Z) : NoDup (Py.range2 a b).
Proof.
  unfold Py.range2. apply NoDup_ListNoDup, Finite.Injective_map_NoDup.
  - intros i j H. lia.
  - apply seq_NoDup.
Qed.

Lemma length_range2 (a b : Z) : length (Py.range2 a b) = Z.to_nat (b - a).
Proof. unfold Py.range2. now rewrite length_map, length_seq. Qed.

Lemma within_incl (lo hi : Z) (l : list Z) :
  within lo hi l -> incl l (Py.range2 lo (hi + 1)).
Proof.
  intros H x Hx. apply In_range2.
  unfold within in H. rewrite List.Forall_forall in H.
  specialize (H x Hx). lia.
Qed.

Lemma covers_incl (lo hi : Z) (l : list Z) :
  covers lo hi l <-> incl (Py.range2 lo (hi + 1)) l.
Proof.
  unfold covers, incl. split; intros H x Hx.
  - apply H. apply In_range2 in Hx. lia.
  - apply H. apply In_range2. lia.
Qed.

Lemma covers_length (lo hi : Z) (l : list Z) :
  covers lo hi l -> hi - lo + 1 <= Z.of_nat (length l).
Proof.
  intros H. apply covers_incl in H.
  apply NoDup_incl_length in H; [|apply NoDup_ListNoDup, NoDup_range2].
  rewrite length_range2 in H. lia.
Qed.

Lemma length_covers (lo hi : Z) (l : list Z) :
  NoDup l -> within lo hi l -> hi - lo + 1 <= Z.of_nat (length l) ->
  covers lo hi l.
Proof.
  intros Hn Hw Hlen. apply covers_incl.
  apply NoDup_length_incl;
    [apply NoDup_ListNoDup; exact Hn | | apply within_incl; exact Hw].
  rewrite length_range2. lia.
Qed.

(** * The claims *)

(** ** C2 *)



(** ** C3 *)



(** ** C1 *)

(** C1 (the code at failing inputs): the date that [next_valid_date]
    returns need not satisfy [validate].  From 2023-01-30 00:00 the spec
    [0 0 * 2 *] is sent to 2023-03-03, outside February: the month step
    adds the 31 days of January to the 31st of January.  From the same date
    [0 0 30 * *] is sent to 2023-03-02: the day sentinel adds 30 days to the
    31st of January.  And [* * * * 0] is sent from Saturday 2024-01-06 23:59
    to Sunday 2024-01-07 00:00, which [validate] refuses, as it compares the
    ISO weekday 7 with the value 0.  All three specs have their sets within
    the domains. *)
Theorem next_valid_date_result_not_validated :
  (exists c, CronSpec.parse "0 0 * 2 *" = Ok c /\ well_formed c
     /\ CronSpec.next_valid_date c (at_minute 2023 1 30 0 0)
        = Ok (at_minute 2023 3 3 0 0)
     /\ CronSpec.validate c (at_minute 2023 3 3 0 0) = false)
  /\ (exists c, CronSpec.parse "0 0 30 * *" = Ok c /\ well_formed c
     /\ CronSpec.next_valid_date c (at_minute 2023 1 30 0 0)
        = Ok (at_minute 2023 3 2 0 0)
     /\ CronSpec.validate c (at_minute 2023 3 2 0 0) = false)
  /\ (exists c, CronSpec.parse "* * * * 0" = Ok c /\ well_formed c
     /\ CronSpec.next_valid_date c (at_minute 2024 1 6 23 59)
        = Ok (at_minute 2024 1 7 0 0)
     /\ CronSpec.validate c (at_minute 2024 1 7 0 0) = false).
Proof.
  repeat split; eexists;
    (split; [vm_compute; reflexivity|]);
    (split; [| split; vm_compute; reflexivity]);
    (constructor; cbn;
     first [ solve [repeat constructor; lia]
           | eexists; split; reflexivity ]).
Qed.

(** ** C4 *)

Lemma isoweekday_range (d : DateTime.t) : 1 <= DateTime.isoweekday d <= 7.
Proof.
  unfold DateTime.isoweekday.
  pose proof (Z.mod_pos_bound (DateTime.toordinal d) 7 ltac:(lia)) as H.
  destruct (DateTime.toordinal d mod 7 =? 0) eqn:E; [lia|].
  apply Z.eqb_neq in E. lia.
Qed.

Lemma validate_true (c : CronSpec.t) (d : DateTime.t) :
  CronSpec.validate c d = true ->
  Py.contains (DateTime.minute d) (CronSpec.minute c) = true
  /\ Py.contains (DateTime.hour d) (CronSpec.hour c) = true
  /\ Py.contains (DateTime.month d) (CronSpec.month c) = true
  /\ (if CronSpec.is_dow_restricted c && CronSpec.is_dom_restricted c
      then Py.contains (DateTime.day d) (CronSpec.dom c)
           || Py.contains (DateTime.isoweekday d) (CronSpec.dow c) = true
      else Py.contains (DateTime.day d) (CronSpec.dom c) = true
           /\ Py.contains (DateTime.isoweekday d) (CronSpec.dow c) = true).
Proof.
  unfold CronSpec.validate.
  destruct (Py.contains (DateTime.minute d) _); [|discriminate].
  destruct (Py.contains (DateTime.hour d) _); [|discriminate].
  destruct (Py.contains (DateTime.month d) _); [|discriminate].
  cbn [negb]. cbv zeta.
  destruct (CronSpec.is_dow_restricted c && CronSpec.is_dom_restricted c).
  - destruct (_ || _); [auto | discriminate].
  - destruct (Py.contains (DateTime.day d) _); [|discriminate].
    destruct (Py.contains (DateTime.isoweekday d) _); [auto | discriminate].
Qed.

(** C4 (the code at a failing input): on Sunday 2024-01-07 the spec parsed
    from [* * * * 7] validates, the specs parsed from [* * * * 0] and from
    [* * * * sun] do not, and the spec parsed from [* * * * 0] validates no
    date at all: [validate] looks the ISO weekday (1 to 7) up in the set,
    where [next_valid_date] looks up the weekday modulo 7. *)
Theorem sunday_written_0_never_validates :
  DateTime.isoweekday (at_minute 2024 1 7 0 0) = 7
  /\ (exists c7, CronSpec.parse "* * * * 7" = Ok c7
        /\ CronSpec.validate c7 (at_minute 2024 1 7 0 0) = true)
  /\ (exists c0, CronSpec.parse "* * * * 0" = Ok c0
        /\ CronSpec.validate c0 (at_minute 2024 1 7 0 0) = false
        /\ forall t, CronSpec.validate c0 t = false)
  /\ (exists cs, CronSpec.parse "* * * * sun" = Ok cs
        /\ CronSpec.dow cs = [0]
        /\ CronSpec.validate cs (at_minute 2024 1 7 0 0) = false).
Proof.
  split; [vm_compute; reflexivity|].
  split; [eexists; split; vm_compute; reflexivity|].
  split; [|eexists; repeat split; vm_compute; reflexivity].
  eexists. split; [vm_compute; reflexivity|].
  split; [vm_compute; reflexivity|].
  intros t.
  match goal with |- ?b = false => destruct b eqn:E end; [|reflexivity].
  apply validate_true in E as (_ & _ & _ & E). cbn in E.
  destruct E as [_ E]. rewrite orb_false_r in E. apply Z.eqb_eq in E.
  pose proof (isoweekday_range t). lia.
Qed.

(** ** C5 *)

(** C5: when both the day-of-month and the day-of-week sets are restricted,
    [validate] accepts a date exactly when its minute, hour and month are
    in their sets and its day of the month is in [dom] or its ISO weekday is
    in [dow].  The spec parsed from [0 0 1,15 * 1] has both restricted; it
    validates 2024-01-01 00:00 (the 1st) and 2024-01-08 00:00 (a Monday,
    not in [dom]) and does not validate 2024-01-02 00:00. *)
Theorem validate_day_rule_is_disjunction :
  (forall c d,
     CronSpec.is_dom_restricted c = true ->
     CronSpec.is_dow_restricted c = true ->
     (CronSpec.validate c d = true <->
      In (DateTime.minute d) (CronSpec.minute c)
      /\ In (DateTime.hour d) (CronSpec.hour c)
      /\ In (DateTime.month d) (CronSpec.month c)
      /\ (In (DateTime.day d) (CronSpec.dom c)
          \/ In (DateTime.isoweekday d) (CronSpec.dow c))))
  /\ (exists c,
        CronSpec.parse "0 0 1,15 * 1" = Ok c
        /\ CronSpec.is_dom_restricted c = true
        /\ CronSpec.is_dow_restricted c = true
        /\ CronSpec.validate c (at_minute 2024 1 1 0 0) = true
        /\ In (DateTime.day (at_minute 2024 1 1 0 0)) (CronSpec.dom c)
        /\ CronSpec.validate c (at_minute 2024 1 8 0 0) = true
        /\ DateTime.isoweekday (at_minute 2024 1 8 0 0) = 1
        /\ ~ In (DateTime.day (at_minute 2024 1 8 0 0)) (CronSpec.dom c)
        /\ CronSpec.validate c (at_minute 2024 1 2 0 0) = false).
Proof.
  split.
  - intros c d Hdom Hdow. rewrite <- !contains_In. split.
    + intros H. apply validate_true in H as (Hm & Hh & Hmo & Hday).
      rewrite Hdom, Hdow in Hday. cbn in Hday.
      apply orb_true_iff in Hday. tauto.
    + intros (Hm & Hh & Hmo & Hday). unfold CronSpec.validate.
      rewrite Hm, Hh, Hmo, Hdom, Hdow. cbn.
      apply orb_true_iff in Hday. rewrite Hday. reflexivity.
  - eexists. split; [vm_compute; reflexivity|].
    repeat split; try (vm_compute; reflexivity).
    + cbn. auto.
    + cbn. intros [H | [H | []]]; discriminate.
Qed.

Lemma validate_day_rule_is_disjunction_witness :
  CronSpec.validate
    (CronSpec.mk [0] [0; 60] [12] [12; 36] true [1; 15]
                 [6] [6; 18] true [1] [1; 8] None)
    (at_minute 2024 6 3 12 0) = true.
Proof.
  apply (proj1 validate_day_rule_is_disjunction); [reflexivity | reflexivity |].
  cbn. repeat split; auto.
Defined.

(** ** C7 *)

(** C7 (the code at failing inputs): [expand_valid] uses its bounds for the
    expansion of [*] only.  A value above the maximum is returned as it is,
    a descending range with a negative step returns values below the
    minimum, and [parse] builds a spec from such a field. *)
Theorem expand_valid_out_of_bounds :
  expand_valid "99" 0 59 = Ok [99]
  /\ expand_valid "5--3/-1" 0 59 = Ok [-1; 0; 1; 2; 3; 4; 5]
  /\ expand_valid "0-30" 1 31 = Ok (Py.range2 0 31)
  /\ expand_valid "x" 0 59 = Raise ValueError
  /\ (exists c, CronSpec.parse "99 * * * *" = Ok c
                /\ CronSpec.minute c = [99]).
Proof.
  repeat split; try (vm_compute; reflexivity).
  eexists. split; vm_compute; reflexivity.
Qed.

(** ** C6 *)

Lemma getitem_out_of_range {A : Type} (l : list A) (i : Z) :
  Z.of_nat (length l) <= i -> Py.getitem l i = Raise IndexError.
Proof.
  intros Hi. unfold Py.getitem.
  assert (E : (i <? 0) = false) by (apply Z.ltb_ge; lia). rewrite E.
  assert (E' : (i <? Z.of_nat (length l)) = false) by (apply Z.ltb_ge; lia).
  rewrite E', andb_false_r. reflexivity.
Qed.

Lemma fields_of_Ok (x : string) (fields : list string) :
  CronSpec.fields_of x = Ok fields ->
  exists text,
    (if Py.startswith "@" (Py.strip x)
     then CronSpec._named_spec !! Py.strip x = Some text
     else text = Py.strip x)
    /\ fields = Py.split text.
Proof.
  unfold CronSpec.fields_of.
  destruct (Py.startswith "@" (Py.strip x)).
  - destruct (CronSpec._named_spec !! Py.strip x) as [v|];
      [|discriminate].
    cbn. intros [= <-]. eauto.
  - cbn. intros [= <-]. eauto.
Qed.

(** C6, as the code has it: a six-field text is accepted, the text beyond
    the fifth field being ignored. *)
Lemma parse_accepts_six_fields :
  (exists c, CronSpec.parse "1 2 3 4 5 junk" = Ok c)
  /\ length (Py.split "1 2 3 4 5 junk") = 6%nat.
Proof.
  split; [eexists|]; vm_compute; reflexivity.
Qed.

(** C6, amended: [parse] raises [KeyError] on a text that starts with [@]
    and is no known alias, and [IndexError] on a text of fewer than five
    whitespace-separated fields.  When it returns a spec, the text (or the
    expansion of its alias) has at least five fields, the first five of
    which [expand_valid] expanded without raising (the weekday names of the
    fifth replaced by their numbers first), the minute, hour, month and
    day-of-week sets are not empty, and the spec is the one that
    [__init__] builds from the five sets and the text.  Fields beyond the
    fifth are not looked at. *)
Theorem parse_accepts_only_when (x : string) :
  (Py.startswith "@" (Py.strip x) = true ->
   CronSpec._named_spec !! Py.strip x = None ->
   CronSpec.parse x = Raise KeyError)
  /\ (forall fields,
        CronSpec.fields_of x = Ok fields -> (length fields < 5)%nat ->
        CronSpec.parse x = Raise IndexError)
  /\ (forall c,
        CronSpec.parse x = Ok c ->
        exists text fields f0 f1 f2 f3 f4 m h dom month dow,
          (if Py.startswith "@" (Py.strip x)
           then CronSpec._named_spec !! Py.strip x = Some text
           else text = Py.strip x)
          /\ fields = Py.split text /\ (5 <= length fields)%nat
          /\ Py.getitem fields 0 = Ok f0 /\ Py.getitem fields 1 = Ok f1
          /\ Py.getitem fields 2 = Ok f2 /\ Py.getitem fields 3 = Ok f3
          /\ Py.getitem fields 4 = Ok f4
          /\ expand_valid f0 0 59 = Ok m /\ expand_valid f1 0 23 = Ok h
          /\ expand_valid f2 1 31 = Ok dom /\ expand_valid f3 1 12 = Ok month
          /\ expand_valid (CronSpec.replace_weekdays (Py.lower f4)) 0 7
             = Ok dow
          /\ m <> [] /\ h <> [] /\ month <> [] /\ dow <> []
          /\ CronSpec.__init__ m h dom month dow (Some x) = Ok c).
Proof.
  split; [|split].
  - intros Ha Hn. unfold CronSpec.parse, CronSpec.fields_of.
    rewrite Ha, Hn. reflexivity.
  - intros fields Hf Hlen. unfold CronSpec.parse. rewrite Hf. cbn [bind].
    rewrite getitem_out_of_range by lia. reflexivity.
  - intros c H.
    apply parse_Ok in H
      as (fields & f0 & f1 & f2 & f3 & f4 & m & h & dom & month & dow
          & Hf & H0 & H1 & H2 & H3 & H4 & Hm & Hh & Hd & Hmo & Hw & Hc).
    apply fields_of_Ok in Hf as (text & Ht & ->).
    pose proof (getitem_Ok_length _ 4 _ ltac:(lia) H4) as Hlen.
    pose proof (init_Ok _ _ _ _ _ _ _ Hc)
      as (m0 & h0 & month0 & dow0 & Em & Eh & Emo & Ew & _).
    apply getitem_0_Ok in Em as (mr & ->), Eh as (hr & ->),
      Emo as (monthr & ->), Ew as (dowr & ->).
    exists text, (Py.split text), f0, f1, f2, f3, f4.
    exists (m0 :: mr), (h0 :: hr), dom, (month0 :: monthr), (dow0 :: dowr).
    repeat split; try assumption; try discriminate.
Qed.

Lemma parse_accepts_only_when_witness :
  CronSpec.parse "@often" = Raise KeyError
  /\ CronSpec.parse "0 0 * *" = Raise IndexError
  /\ (exists fields,
        fields = Py.split (Py.strip "1 2 3 4 5 junk")
        /\ (5 <= length fields)%nat).
Proof.
  split; [|split].
  - apply (proj1 (parse_accepts_only_when "@often")); reflexivity.
  - apply (proj1 (proj2 (parse_accepts_only_when "0 0 * *"))
             ["0"; "0"; "*"; "*"]); [reflexivity | simpl; lia].
  - assert (H : exists c, CronSpec.parse "1 2 3 4 5 junk" = Ok c)
      by (eexists; vm_compute; reflexivity).
    destruct H as (c & Hc).
    destruct (proj2 (proj2 (parse_accepts_only_when "1 2 3 4 5 junk")) c Hc)
      as (text & fields & f0 & f1 & f2 & f3 & f4 & m & h & dom & month & dow
          & Ht & Hf & Hlen & _).
    vm_compute in Ht. subst text. exists fields. split; assumption.
Defined.

(** ** C8 *)

(** C8: the string conversion of a spec that [parse] returned for the text
    [x] is [x] itself: [parse] stores the text it was given, and [__str__]
    returns the stored text as it is. *)
Theorem str_of_parse_is_source (x : string) (c : CronSpec.t) :
  CronSpec.parse x = Ok c -> CronSpec.__str__ c = Ok x.
Proof.
  intros H.
  apply parse_Ok in H
    as (fields & f0 & f1 & f2 & f3 & f4 & m & h & dom & month & dow
        & _ & _ & _ & _ & _ & _ & _ & _ & _ & _ & _ & Hc).
  apply init_fields in Hc as (_ & _ & _ & _ & _ & Hpf).
  unfold CronSpec.__str__. rewrite Hpf. reflexivity.
Qed.

Lemma str_of_parse_is_source_witness :
  exists c,
    CronSpec.parse "*/15 1-5 1,15 * mon-fri" = Ok c
    /\ CronSpec.__str__ c = Ok "*/15 1-5 1,15 * mon-fri"
    /\ CronSpec.derived_text c
       = Ok "0,15,30,45 1-5 1,15 * Mon,Tue,Wed,Thu,Fri".
Proof.
  eexists. split; [vm_compute; reflexivity|].
  split; [|vm_compute; reflexivity].
  apply str_of_parse_is_source. vm_compute. reflexivity.
Defined.

(** ** C9 *)

(** C9, as the code has it: the day-of-week set of [* * * * 1-7] has seven
    values, so the spec is not day-of-week restricted, and yet the set does
    not cover the domain from 0 to 7. *)
Lemma dow_1_to_7_is_unrestricted :
  exists c,
    CronSpec.parse "* * * * 1-7" = Ok c
    /\ CronSpec.is_dow_restricted c = false
    /\ ~ covers 0 7 (CronSpec.dow c).
Proof.
  eexists. split; [vm_compute; reflexivity|].
  split; [reflexivity|].
  intros H. specialize (H 0 ltac:(lia)). cbn in H.
  repeat (destruct H as [H | H]; [discriminate|]). exact H.
Qed.

Lemma parse_flags (x : string) (c : CronSpec.t) :
  CronSpec.parse x = Ok c ->
  flags_by_length c /\ NoDup (CronSpec.dom c) /\ NoDup (CronSpec.dow c).
Proof.
  intros H.
  apply parse_Ok in H
    as (fields & f0 & f1 & f2 & f3 & f4 & m & h & dom & month & dow
        & _ & _ & _ & _ & _ & _ & _ & _ & Hd & _ & Hw & Hc).
  apply init_Ok in Hc as (m0 & h0 & month0 & dow0 & _ & _ & _ & _ & ->).
  apply expand_valid_Ok in Hd as [Hd _], Hw as [Hw _].
  unfold flags_by_length. simpl. auto.
Qed.

(** C9, amended: [is_dom_restricted] is true exactly when the day-of-month
    set holds fewer than 31 values, and [is_dow_restricted] exactly when
    the day-of-week set holds fewer than 7 values.  This holds of every
    spec that [__init__] or [parse] returns, any call of [setup] keeps it
    (also one that raises), and so does [replace] for every object of the
    store.  For a duplicate-free day-of-month set within 1 to 31, as
    [parse] produces when the values are in range, restricted means that
    the set does not cover 1 to 31.  A restricted day-of-week set does not
    cover 0 to 7; the converse is not claimed. *)
Theorem restricted_flags_follow_lengths :
  (forall m h dom month dow pf c,
     CronSpec.__init__ m h dom month dow pf = Ok c -> flags_by_length c)
  /\ (forall x c,
        CronSpec.parse x = Ok c ->
        flags_by_length c /\ NoDup (CronSpec.dom c) /\ NoDup (CronSpec.dow c))
  /\ (forall m h dom month dow s,
        flags_by_length s ->
        flags_by_length (CronSpec.setup m h dom month dow s).2)
  /\ (forall self m h dom month dow (store : gmap positive CronSpec.t)
             r store',
        (forall l o, store !! l = Some o -> flags_by_length o) ->
        CronSpec.replace self m h dom month dow store = Some (r, store') ->
        forall l o, store' !! l = Some o -> flags_by_length o)
  /\ (forall c,
        flags_by_length c -> NoDup (CronSpec.dom c) ->
        within 1 31 (CronSpec.dom c) ->
        (CronSpec.is_dom_restricted c = true
         <-> ~ covers 1 31 (CronSpec.dom c)))
  /\ (forall c,
        flags_by_length c -> CronSpec.is_dow_restricted c = true ->
        ~ covers 0 7 (CronSpec.dow c)).
Proof.
  split; [|split; [|split; [|split; [|split]]]].
  - intros m h dom month dow pf c H.
    apply init_Ok in H as (m0 & h0 & month0 & dow0 & _ & _ & _ & _ & ->).
    split; reflexivity.
  - apply parse_flags.
  - apply setup_flags.
  - intros self m h dom month dow store r store' Hall.
    unfold CronSpec.replace, CronSpec.deepcopy.
    destruct (store !! self) as [obj|] eqn:Eself; [|discriminate].
    rewrite lookup_insert_eq.
    pose proof (setup_flags m h dom month dow obj (Hall _ _ Eself)) as Hf.
    destruct (CronSpec.setup m h dom month dow obj) as [[u|e] obj'];
      intros [= <- <-] l o; rewrite insert_insert_eq;
      (destruct (decide (fresh (base.dom store) = l)) as [<- | Hne];
       [rewrite lookup_insert_eq; intros [= <-]; exact Hf
       | rewrite lookup_insert_ne by exact Hne; apply Hall]).
  - intros c [Hd _] Hn Hw. rewrite Hd. split.
    + intros Hlt Hc. apply Z.ltb_lt in Hlt.
      apply covers_length in Hc. lia.
    + intros Hc. apply Z.ltb_lt.
      destruct (Z_lt_dec (Z.of_nat (length (CronSpec.dom c))) 31) as [H | H];
        [exact H|].
      exfalso. apply Hc. apply length_covers; [exact Hn | exact Hw | lia].
  - intros c [_ Hw] Hr Hc. rewrite Hw in Hr. apply Z.ltb_lt in Hr.
    apply covers_length in Hc. lia.
Qed.

Lemma restricted_flags_follow_lengths_witness :
  exists c,
    CronSpec.parse "0 0 1,15 * 1" = Ok c
    /\ flags_by_length c
    /\ (CronSpec.is_dom_restricted c = true
        <-> ~ covers 1 31 (CronSpec.dom c))
    /\ ~ covers 0 7 (CronSpec.dow c).
Proof.
  assert (H : exists c, CronSpec.parse "0 0 1,15 * 1" = Ok c)
    by (eexists; vm_compute; reflexivity).
  destruct H as (c & Hc). exists c.
  destruct (proj1 (proj2 restricted_flags_follow_lengths) _ _ Hc)
    as (Hf & Hn & _).
  assert (E : c = CronSpec.mk [0] [0; 60] [0] [0; 24] true [1; 15]
                    (Py.range2 1 13) (Py.range2 1 14) true [1] [1; 8]
                    (Some "0 0 1,15 * 1"))
    by (vm_compute in Hc; injection Hc as <-; reflexivity).
  repeat split.
  - exact Hc.
  - apply Hf.
  - apply Hf.
  - apply (proj1 (proj2 (proj2 (proj2 (proj2
             restricted_flags_follow_lengths)))) c Hf Hn).
    rewrite E. simpl. repeat constructor; lia.
  - apply (proj1 (proj2 (proj2 (proj2 (proj2
             restricted_flags_follow_lengths)))) c Hf Hn).
    rewrite E. simpl. repeat constructor; lia.
  - apply (proj2 (proj2 (proj2 (proj2 (proj2
             restricted_flags_follow_lengths)))) c Hf).
    rewrite E. reflexivity.
Defined.

(** ** C10 *)



(** The derived text is computed from the sets alone; for a source text
    that is already in the derived form the two are the same string. *)
Lemma derived_text_of_every_minute :
  exists c,
    CronSpec.parse "* * * * *" = Ok c
    /\ CronSpec.derived_text c = Ok "* * * * *".
Proof.
  eexists. split; vm_compute; reflexivity.
Qed.

(** * Further properties of the module *)

(** ** [expand_valid]: the returned list *)

Lemma sorted_le_NoDup_lt (l : list Z) :
  StronglySorted Z.le l -> NoDup l -> StronglySorted Z.lt l.
Proof.
  induction 1 as [|x l Hs IH Hx]; intros Hn; constructor.
  - apply IH. apply NoDup_cons in Hn. tauto.
  - apply NoDup_cons in Hn as [Hnotin _].
    rewrite Forall_forall in Hx |- *. intros y Hy.
    specialize (Hx y Hy).
    assert (x <> y) by (intros ->; contradiction). lia.
Qed.

Lemma In_sorted (s : gset Z) (x : Z) : In x (Py.sorted s) <-> x ∈ s.
Proof.
  unfold Py.sorted. rewrite <- list_elem_of_In, merge_sort_Permutation.
  apply elem_of_elements.
Qed.

(** The list that [expand_valid] returns is strictly ascending: sorted and
    without duplicates, whatever the order and the overlaps of the pieces
    of the field. *)
Theorem expand_valid_strictly_ascending
  (value : string) (lo hi : Z) (l : list Z) :
  expand_valid value lo hi = Ok l -> StronglySorted Z.lt l.
Proof.
  intros H. apply expand_valid_Ok in H as [Hn Hs].
  apply sorted_le_NoDup_lt; assumption.
Qed.

Lemma expand_valid_strictly_ascending_witness :
  StronglySorted Z.lt [1; 2; 3; 4; 5; 10; 20; 30].
Proof.
  apply (expand_valid_strictly_ascending "10-30/10,3-5,1-4,20" 0 59).
  vm_compute. reflexivity.
Defined.

Lemma int_digits_error (s : string) (acc : Z) (prev : bool) (e : exn) :
  Py.int_digits acc prev s = Raise e -> e = ValueError.
Proof.
  revert acc prev. induction s as [|c r IH]; intros acc prev; simpl.
  - destruct prev; [discriminate | congruence].
  - destruct (Py.isdigit c); [apply IH|].
    destruct (Ascii.eqb c "_"); [|congruence].
    destruct prev; [apply IH | congruence].
Qed.

Lemma int_error (s : string) (e : exn) : Py.int s = Raise e -> e = ValueError.
Proof.
  unfold Py.int.
  assert (Hneg : forall r, bind (Py.int_digits 0 false r)
                             (fun n => Ok (- n)) = Raise e -> e = ValueError).
  { intros r. destruct (Py.int_digits 0 false r) eqn:E; simpl;
      [discriminate|]. intros [= <-]. eapply int_digits_error; eassumption. }
  destruct (Py.strip s) as [|c r]; [apply int_digits_error|].
  destruct c as [[] [] [] [] [] [] [] []];
    first [apply int_digits_error | apply Hneg].
Qed.

Lemma range_error (a b s : Z) (e : exn) :
  Py.range a b s = Raise e -> e = ValueError.
Proof. unfold Py.range. destruct (s =? 0); [congruence | discriminate]. Qed.

Lemma bind_Raise {A B : Type} (r : result A) (k : A -> result B) (e : exn) :
  bind r k = Raise e ->
  r = Raise e \/ exists a, r = Ok a /\ k a = Raise e.
Proof. destruct r as [a|e']; simpl; intros H; [eauto | left; congruence]. Qed.

Lemma expand_interval_error (interval : string) (e : exn) :
  expand_interval interval = Raise e -> e = ValueError.
Proof.
  unfold expand_interval.
  destruct (Py.partition "/" interval) as [[range_ sep] step].
  destruct (Py.partition "-" range_) as [[start sep'] end_].
  intros H.
  apply bind_Raise in H as [H | (st & _ & H)].
  { destruct (String.eqb "" step); [discriminate|].
    eapply int_error; eassumption. }
  apply bind_Raise in H as [H | (a & _ & H)].
  { eapply int_error; eassumption. }
  apply bind_Raise in H as [H | (b & _ & H)].
  { destruct (String.eqb "" end_); [discriminate|].
    eapply int_error; eassumption. }
  eapply range_error; eassumption.
Qed.

Lemma expand_intervals_Ok (pieces : list string) (valid s : gset Z) :
  expand_intervals valid pieces = Ok s ->
  (forall piece, In piece pieces -> exists r, expand_interval piece = Ok r)
  /\ (forall x, x ∈ s <->
        x ∈ valid
        \/ exists piece r,
             In piece pieces /\ expand_interval piece = Ok r /\ In x r).
Proof.
  revert valid. induction pieces as [|p rest IH]; intros valid; simpl.
  - intros [= <-]. split; [intros ? []|].
    intros x. split; [auto|]. intros [H | (? & ? & [] & _)]. exact H.
  - intros H. apply bind_Ok in H as (r & Hr & H).
    apply IH in H as [Hall Hmem]. split.
    + intros piece [<- | Hin]; [eauto | apply Hall, Hin].
    + intros x. rewrite Hmem, elem_of_union, elem_of_list_to_set,
        list_elem_of_In.
      split.
      * intros [[Hv | Hx] | (piece & r' & Hin & Hp & Hx)].
        -- now left.
        -- right. exists p, r. auto.
        -- right. exists piece, r'. auto.
      * intros [Hv | (piece & r' & [<- | Hin] & Hp & Hx)].
        -- left. now left.
        -- left. right. congruence.
        -- right. exists piece, r'. auto.
Qed.

Lemma expand_intervals_total (pieces : list string) (valid : gset Z) :
  (forall piece, In piece pieces -> exists r, expand_interval piece = Ok r) ->
  exists s, expand_intervals valid pieces = Ok s.
Proof.
  revert valid. induction pieces as [|p rest IH]; intros valid Hall; simpl.
  - eauto.
  - destruct (Hall p (or_introl eq_refl)) as (r & ->). simpl.
    apply IH. intros piece Hin. apply Hall. now right.
Qed.

Lemma expand_intervals_error (pieces : list string) (valid : gset Z) (e : exn) :
  expand_intervals valid pieces = Raise e -> e = ValueError.
Proof.
  revert valid. induction pieces as [|p rest IH]; intros valid; simpl.
  - discriminate.
  - destruct (expand_interval p) as [r|e'] eqn:E; simpl.
    + apply IH.
    + intros [= <-]. eapply expand_interval_error; eassumption.
Qed.

(** [expand_valid] returns the union of its pieces: with every [*] of the
    field replaced by [min-max] and the field split at the commas, the call
    succeeds exactly when every piece expands, its result then holds
    exactly the values of the pieces, and the only exception it raises is
    [ValueError]. *)
Theorem expand_valid_is_union_of_pieces (value : string) (lo hi : Z) :
  let pieces :=
    Py.split_on ","
      (Py.replace "*"
         (String.append (Py.str lo) (String.append "-" (Py.str hi))) value) in
  ((exists l, expand_valid value lo hi = Ok l)
   <-> forall piece, In piece pieces -> exists r, expand_interval piece = Ok r)
  /\ (forall l,
        expand_valid value lo hi = Ok l ->
        forall x, In x l <->
          exists piece r,
            In piece pieces /\ expand_interval piece = Ok r /\ In x r)
  /\ (forall e, expand_valid value lo hi = Raise e -> e = ValueError).
Proof.
  intros pieces. unfold expand_valid. fold pieces.
  split; [split|split].
  - intros (l & H). apply bind_Ok in H as (s & Hs & _).
    apply (expand_intervals_Ok _ _ _ Hs).
  - intros Hall. destruct (expand_intervals_total pieces ∅ Hall) as (s & ->).
    simpl. eauto.
  - intros l H x. apply bind_Ok in H as (s & Hs & [= <-]).
    rewrite In_sorted. destruct (expand_intervals_Ok _ _ _ Hs) as [_ Hmem].
    rewrite Hmem. split; [|auto].
    intros [Hx | Hx]; [|exact Hx]. apply not_elem_of_empty in Hx. contradiction.
  - intros e. destruct (expand_intervals ∅ pieces) as [s|e'] eqn:E; simpl.
    + discriminate.
    + intros [= <-]. eapply expand_intervals_error; eassumption.
Qed.

Lemma expand_valid_is_union_of_pieces_witness :
  In 30 [0; 15; 30; 45; 50] <->
    exists piece r,
      In piece ["0-59/15"; "50"]
      /\ expand_interval piece = Ok r /\ In 30 r.
Proof.
  apply (proj1 (proj2 (expand_valid_is_union_of_pieces "*/15,50" 0 59))
           [0; 15; 30; 45; 50]).
  vm_compute. reflexivity.
Defined.

(** ** [first] *)

Lemma first_outcome {A : Type} (f : A -> bool) (l : list A) :
  (forall x, first f l = Ok x <->
     exists l1 l2,
       l = (l1 ++ x :: l2)%list /\ f x = true
       /\ Forall (fun y => f y = false) l1)
  /\ (forall e, first f l = Raise e <->
        e = ValueError /\ Forall (fun y => f y = false) l).
Proof.
  induction l as [|a l [IHok IHerr]]; simpl.
  - split.
    + intros x. split; [discriminate|].
      intros (l1 & l2 & H & _). destruct l1; discriminate.
    + intros e. split; [intros [= <-]; auto | intros [-> _]; reflexivity].
  - destruct (f a) eqn:Ea; split.
    + intros x. split.
      * intros [= <-]. exists [], l. auto.
      * intros (l1 & l2 & H & Hx & Hl1). destruct l1 as [|b l1].
        -- injection H as ->. reflexivity.
        -- injection H as -> _. apply Forall_inv in Hl1. congruence.
    + intros e. split; [discriminate|].
      intros [_ H]. apply Forall_inv in H. congruence.
    + intros x. rewrite IHok. split.
      * intros (l1 & l2 & -> & Hx & Hl1). exists (a :: l1), l2. auto.
      * intros (l1 & l2 & H & Hx & Hl1). destruct l1 as [|b l1].
        -- injection H as -> _. congruence.
        -- injection H as -> ->. exists l1, l2.
           split; [reflexivity|]. split; [exact Hx|].
           exact (Forall_inv_tail Hl1).
    + intros e. rewrite IHerr. split.
      * intros [-> H]. auto.
      * intros [-> H]. split; [reflexivity | exact (Forall_inv_tail H)].
Qed.

(** [first] returns the leftmost element that the function accepts, and
    raises [ValueError] exactly when the function accepts no element. *)
Theorem first_is_leftmost_match {A : Type} (f : A -> bool) (l : list A) :
  (forall x, first f l = Ok x <->
     exists l1 l2,
       l = (l1 ++ x :: l2)%list /\ f x = true
       /\ Forall (fun y => f y = false) l1)
  /\ (forall e, first f l = Raise e <->
        e = ValueError /\ Forall (fun y => f y = false) l).
Proof. apply first_outcome. Qed.

Lemma sorted_app_tail (l1 l2 : list Z) (x : Z) :
  StronglySorted Z.le (l1 ++ x :: l2) -> Forall (Z.le x) l2.
Proof.
  induction l1 as [|a l1 IH]; simpl; intros H;
    apply StronglySorted_inv in H as [H Ha]; [exact Ha | apply IH, H].
Qed.

(** On an ascending list, the search [first(lambda x: x >= a, l)] that
    [next_valid_date] uses returns the least element that is at least
    [a]. *)
Theorem first_ge_is_least (a : Z) (l : list Z) (x : Z) :
  StronglySorted Z.le l ->
  first (fun v => v >=? a) l = Ok x ->
  In x l /\ a <= x /\ forall y, In y l -> a <= y -> x <= y.
Proof.
  intros Hs H. destruct (first_Ok_ge _ _ _ H) as [Hax Hin].
  split; [exact Hin|]. split; [exact Hax|].
  apply (proj1 (first_outcome _ _)) in H
    as (l1 & l2 & -> & _ & Hl1).
  intros y Hy Hay. apply in_app_or in Hy as [Hy | [-> | Hy]].
  - rewrite List.Forall_forall in Hl1. specialize (Hl1 y Hy).
    rewrite Z.geb_leb in Hl1. apply Z.leb_gt in Hl1. lia.
  - lia.
  - apply sorted_app_tail in Hs.
    rewrite List.Forall_forall in Hs. apply Hs, Hy.
Qed.

Lemma first_ge_is_least_witness :
  In 50 [25; 50; 85] /\ 26 <= 50 /\ 50 <= 85.
Proof.
  destruct (first_ge_is_least 26 [25; 50; 85] 50) as (Hin & Hge & Hleast).
  - repeat constructor; lia.
  - reflexivity.
  - split; [exact Hin|]. split; [exact Hge|].
    apply Hleast; [simpl; auto | lia].
Defined.

(** ** [group_intervals] *)

Lemma range2_snoc (a b : Z) :
  a <= b -> Py.range2 a (b + 1) = (Py.range2 a b ++ [b])%list.
Proof.
  intros H. unfold Py.range2.
  replace (Z.to_nat (b + 1 - a)) with (Z.to_nat (b - a) + 1)%nat by lia.
  rewrite seq_app, map_app. simpl. do 2 f_equal. lia.
Qed.

Lemma range2_single (a : Z) : Py.range2 a (a + 1) = [a].
Proof.
  unfold Py.range2. replace (a + 1 - a) with 1 by lia. simpl.
  f_equal. lia.
Qed.

Lemma group_intervals_loop_spec (values : list Z) (start last : Z) :
  start <= last -> StronglySorted Z.lt (last :: values) ->
  let groups := group_intervals_loop start last values in
  interval_values groups = (Py.range2 start (last + 1) ++ values)%list
  /\ separated groups
  /\ exists stop rest, groups = (start, stop) :: rest.
Proof.
  revert start last. induction values as [|v rest IH]; intros start last Hsl Hs.
  - simpl. unfold interval_values. simpl.
    rewrite !app_nil_r. repeat split; eauto.
  - apply StronglySorted_inv in Hs as [Hs Hlast].
    pose proof (Forall_inv Hlast) as Hlv. simpl in Hlv.
    cbn [group_intervals_loop]. cbv zeta.
    destruct (v - last >? 1) eqn:Ed.
    + destruct (IH v v ltac:(lia) Hs) as (Hv & Hsep & stop & rest' & Eg).
      cbv zeta in Hv, Hsep, Eg.
      split; [|split].
      * unfold interval_values in *. cbn [flat_map fst snd].
        rewrite Hv, range2_single. reflexivity.
      * cbn [separated fst snd]. rewrite Eg in *. cbn [fst].
        split; [exact Hsl|]. split; [|exact Hsep].
        apply Z.gtb_lt in Ed. lia.
      * eauto.
    + assert (Ev : v = last + 1).
      { rewrite Z.gtb_ltb in Ed. apply Z.ltb_ge in Ed. lia. }
      assert (Hs' : StronglySorted Z.lt (v :: rest)) by exact Hs.
      destruct (IH start v ltac:(lia) Hs') as (Hv & Hsep & stop & rest' & Eg).
      cbv zeta in Hv, Hsep, Eg.
      split; [|split].
      * rewrite Hv. rewrite (range2_snoc start v) by lia.
        rewrite <- app_assoc. subst v. reflexivity.
      * exact Hsep.
      * eauto.
Qed.

(** [group_intervals] raises [IndexError] on the empty list and on no other
    list.  For a strictly ascending list it yields non-empty intervals that
    lie more than one apart, in ascending order, and that stand for exactly
    the values of the list: the maximal runs of consecutive values. *)
Theorem group_intervals_are_the_runs (values : list Z) :
  (group_intervals values = Raise IndexError <-> values = [])
  /\ (StronglySorted Z.lt values -> values <> [] ->
      exists groups,
        group_intervals values = Ok groups
        /\ interval_values groups = values
        /\ separated groups).
Proof.
  unfold group_intervals. destruct values as [|v rest].
  - split; [split; reflexivity | intros _ H; contradiction].
  - rewrite getitem_cons_0. cbn [bind tail]. split.
    + split; discriminate.
    + intros Hs _.
      destruct (group_intervals_loop_spec rest v v ltac:(lia) Hs)
        as (Hv & Hsep & _).
      cbv zeta in Hv, Hsep. eexists. split; [reflexivity|].
      split; [|exact Hsep]. rewrite Hv, range2_single. reflexivity.
Qed.

Lemma group_intervals_are_the_runs_witness :
  exists groups,
    group_intervals [0; 1; 2; 5; 7; 8] = Ok groups
    /\ interval_values groups = [0; 1; 2; 5; 7; 8]
    /\ separated groups.
Proof.
  apply (proj2 (group_intervals_are_the_runs [0; 1; 2; 5; 7; 8])).
  - repeat constructor; lia.
  - discriminate.
Defined.

(** ** Ordinals of dates, and [monthesrange] *)

Lemma sum_app_single (l : list Z) (x : Z) :
  Py.sum (l ++ [x]) = Py.sum l + x.
Proof. unfold Py.sum. rewrite fold_left_app. reflexivity. Qed.

Lemma days_before_month_succ (y m : Z) :
  1 <= m ->
  DateTime.days_before_month y (m + 1)
  = DateTime.days_before_month y m + DateTime.days_in_month y m.
Proof.
  intros Hm. unfold DateTime.days_before_month.
  rewrite range2_snoc by lia. rewrite map_app. simpl.
  apply sum_app_single.
Qed.

Lemma days_before_month_1 (y : Z) : DateTime.days_before_month y 1 = 0.
Proof. reflexivity. Qed.

Lemma days_before_month_13 (y : Z) :
  DateTime.days_before_month y 13
  = 365 + (if DateTime.isleap y then 1 else 0).
Proof.
  unfold DateTime.days_before_month, DateTime.days_in_month.
  destruct (DateTime.isleap y); vm_compute; reflexivity.
Qed.

Lemma days_before_year_succ (y : Z) :
  DateTime.days_before_year (y + 1)
  = DateTime.days_before_year y + 365 + (if DateTime.isleap y then 1 else 0).
Proof.
  unfold DateTime.days_before_year, DateTime.isleap. cbv zeta.
  replace (y + 1 - 1) with y by lia.
  destruct (Z.eqb_spec (y mod 4) 0) as [E4 | E4];
    destruct (Z.eqb_spec (y mod 100) 0) as [E100 | E100];
    destruct (Z.eqb_spec (y mod 400) 0) as [E400 | E400];
    cbn [andb orb negb];
    Z.div_mod_to_equations; lia.
Qed.

(** The first day of the month after month [m] of year [y]. *)
Lemma ymd2ord_next_month (y m : Z) :
  1 <= m <= 12 ->
  DateTime.ymd2ord (y + m / 12) (1 + m mod 12) 1
  = DateTime.ymd2ord y m 1 + DateTime.days_in_month y m.
Proof.
  intros Hm. unfold DateTime.ymd2ord.
  destruct (Z.eq_dec m 12) as [-> | Hne].
  - change (12 / 12) with 1. change (1 + 12 mod 12) with 1.
    rewrite days_before_year_succ, days_before_month_1.
    pose proof (days_before_month_succ y 12 ltac:(lia)) as H.
    change (12 + 1) with 13 in H. rewrite days_before_month_13 in H. lia.
  - rewrite (Z.div_small m 12), (Z.mod_small m 12) by lia.
    rewrite Z.add_0_r, (Z.add_comm 1 m).
    rewrite days_before_month_succ by lia. lia.
Qed.



Lemma monthesrange_snoc (y m m' : Z) :
  m <= m' ->
  monthesrange y m (m' + 1)
  = (monthesrange y m m'
     ++ [DateTime.days_in_month (y + (m' - 1) / 12) (1 + (m' - 1) mod 12)])%list.
Proof.
  intros H. unfold monthesrange. cbv zeta.
  replace (m' + 1 - 1) with (m' - 1 + 1) by lia.
  rewrite range2_snoc by lia. rewrite map_app. reflexivity.
Qed.

Lemma ymd2ord_month_index (y k : Z) :
  0 <= k ->
  DateTime.ymd2ord (y + (k + 1) / 12) (1 + (k + 1) mod 12) 1
  = DateTime.ymd2ord (y + k / 12) (1 + k mod 12) 1
    + DateTime.days_in_month (y + k / 12) (1 + k mod 12).
Proof.
  intros Hk.
  pose proof (Z.mod_pos_bound k 12 ltac:(lia)) as Hr.
  pose proof (ymd2ord_next_month (y + k / 12) (1 + k mod 12) ltac:(lia)) as H.
  rewrite <- H. f_equal.
  - Z.div_mod_to_equations. lia.
  - Z.div_mod_to_equations. lia.
Qed.

(** [monthesrange] lists the lengths of the months from [start_month] up
    to, not including, [end_month], where a month number above 12 runs into
    the following years: there are [end_month - start_month] of them, each
    between 28 and 31, and their sum is the number of days from the first
    day of [start_month] to the first day of [end_month].  When [end_month]
    is not above [start_month] the list is empty. *)
Theorem monthesrange_spans_the_months (y m m' : Z) :
  (m' <= m -> monthesrange y m m' = [])
  /\ (1 <= m <= 12 -> m <= m' ->
      Z.of_nat (length (monthesrange y m m')) = m' - m
      /\ Forall (fun d => 28 <= d <= 31) (monthesrange y m m')
      /\ DateTime.ymd2ord (y + (m' - 1) / 12) (1 + (m' - 1) mod 12) 1
         = DateTime.ymd2ord y m 1 + Py.sum (monthesrange y m m')).
Proof.
  split.
  - intros H. unfold monthesrange, Py.range2. cbv zeta.
    replace (Z.to_nat (m' - 1 - (m - 1))) with 0%nat by lia. reflexivity.
  - intros Hm Hmm'. split; [|split].
    + unfold monthesrange. cbv zeta. rewrite length_map, length_range2. lia.
    + unfold monthesrange. apply List.Forall_forall. intros d Hd.
      apply in_map_iff in Hd as (k & <- & _). simpl.
      apply days_in_month_bounds.
    + assert (Hgen : forall j : nat,
                DateTime.ymd2ord (y + (m + Z.of_nat j - 1) / 12)
                  (1 + (m + Z.of_nat j - 1) mod 12) 1
                = DateTime.ymd2ord y m 1
                  + Py.sum (monthesrange y m (m + Z.of_nat j))).
      { induction j as [|j IH].
        - rewrite Z.add_0_r.
          rewrite (Z.div_small (m - 1) 12), (Z.mod_small (m - 1) 12) by lia.
          unfold monthesrange, Py.range2. cbv zeta.
          replace (Z.to_nat (m - 1 - (m - 1))) with 0%nat by lia.
          replace (y + 0) with y by lia.
          replace (1 + (m - 1)) with m by lia.
          cbn. lia.
        - replace (m + Z.of_nat (S j)) with (m + Z.of_nat j + 1) by lia.
          rewrite monthesrange_snoc by lia. rewrite sum_app_single.
          replace (m + Z.of_nat j + 1 - 1) with (m + Z.of_nat j - 1 + 1) by lia.
          rewrite ymd2ord_month_index by lia. rewrite IH. lia. }
      specialize (Hgen (Z.to_nat (m' - m))).
      replace (m + Z.of_nat (Z.to_nat (m' - m))) with m' in Hgen by lia.
      exact Hgen.
Qed.

Lemma monthesrange_spans_the_months_witness :
  DateTime.ymd2ord 2024 2 1
  = DateTime.ymd2ord 2023 11 1 + Py.sum (monthesrange 2023 11 14).
Proof.
  apply (proj2 (monthesrange_spans_the_months 2023 11 14)); lia.
Defined.

(** ** [next_valid_date]: the steps of a successful call *)








Lemma next_valid_date_from_steps (c : CronSpec.t) (t : DateTime.t)
  (x1 x2 x3 : Z) (de : list Z) (x4 x5 : Z) :
  let n1 := DateTime.add_minutes 1 (DateTime.replace_second_microsecond t) in
  let n2 := DateTime.add_minutes (x1 - DateTime.minute n1) n1 in
  let n3 := DateTime.add_hours (x2 - DateTime.hour n2) n2 in
  let last_dow := DateTime.isoweekday n3 mod 7 in
  let delay_d :=
    if CronSpec.is_dow_restricted c && CronSpec.is_dom_restricted c
    then Z.min (x3 - last_dow) (x4 - DateTime.day n3)
    else if CronSpec.is_dow_restricted c then x3 - last_dow
         else x4 - DateTime.day n3 in
  let n4 := DateTime.add_days delay_d n3 in
  first (fun x => x >=? DateTime.minute n1) (CronSpec.minute_e c) = Ok x1 ->
  first (fun x => x >=? DateTime.hour n2) (CronSpec.hour_e c) = Ok x2 ->
  first (fun x => x >=? last_dow) (CronSpec.dow_e c) = Ok x3 ->
  CronSpec.dom_e c (snd (monthrange (DateTime.year n3) (DateTime.month n3)))
  = Ok de ->
  first (fun x => x >=? DateTime.day n3) de = Ok x4 ->
  first (fun x => x >=? DateTime.month n4) (CronSpec.month_e c) = Ok x5 ->
  CronSpec.next_valid_date c t
  = Ok (DateTime.add_days
          (Py.sum (monthesrange (DateTime.year n4) (DateTime.month n4) x5))
          n4).
Proof.
  cbv zeta. intros H1 H2 H3 Hde H4 H5.
  unfold CronSpec.next_valid_date. cbv zeta.
  rewrite H1. cbn [bind]. rewrite H2. cbn [bind]. rewrite H3. cbn [bind].
  rewrite Hde. cbn [bind]. rewrite H4. cbn [bind]. rewrite H5. reflexivity.
Qed.

(** ** [next_valid_date]: a valid next minute is returned *)

Lemma first_ge_self (a : Z) (l l' : list Z) :
  StronglySorted Z.le l -> In a l ->
  first (fun v => v >=? a) (l ++ l') = Ok a.
Proof.
  induction l as [|h l IH]; intros Hs Hin; [destruct Hin|].
  apply StronglySorted_inv in Hs as [Hs Hh]. simpl.
  destruct (h >=? a) eqn:E.
  - f_equal. apply Z.geb_le in E. destruct Hin as [-> | Hin]; [reflexivity|].
    rewrite List.Forall_forall in Hh. specialize (Hh a Hin). lia.
  - destruct Hin as [-> | Hin].
    + rewrite Z.geb_leb in E. apply Z.leb_gt in E. lia.
    + apply IH; assumption.
Qed.

Lemma first_ge_self_filter (P : Z -> bool) (a : Z) (l l' : list Z) :
  StronglySorted Z.le l -> In a l -> P a = true ->
  first (fun v => v >=? a) (filter P l ++ l') = Ok a.
Proof.
  intros Hs Hin HP.
  induction l as [|h l IH]; [destruct Hin|].
  apply StronglySorted_inv in Hs as [Hs Hh].
  rewrite filter_cons. destruct (decide (P h)) as [Ph | Ph].
  - simpl. destruct (h >=? a) eqn:E.
    + f_equal. apply Z.geb_le in E. destruct Hin as [-> | Hin]; [reflexivity|].
      rewrite List.Forall_forall in Hh. specialize (Hh a Hin). lia.
    + destruct Hin as [-> | Hin].
      * rewrite Z.geb_leb in E. apply Z.leb_gt in E. lia.
      * apply IH; assumption.
  - destruct Hin as [-> | Hin].
    + rewrite HP in Ph. exfalso. apply Ph. exact I.
    + apply IH; assumption.
Qed.

Lemma add_hours_0 (n : DateTime.t) :
  0 <= DateTime.hour n < 24 -> DateTime.add_hours 0 n = n.
Proof.
  intros H. unfold DateTime.add_hours. rewrite Z.add_0_r.
  rewrite Z.div_small, Z.mod_small by lia. rewrite add_days_0.
  destruct n. reflexivity.
Qed.

Lemma add_minutes_0 (n : DateTime.t) :
  0 <= DateTime.minute n < 60 -> 0 <= DateTime.hour n < 24 ->
  DateTime.add_minutes 0 n = n.
Proof.
  intros Hm Hh. unfold DateTime.add_minutes. rewrite Z.add_0_r.
  rewrite Z.div_small, Z.mod_small by lia.
  rewrite add_hours_0 by exact Hh. destruct n. reflexivity.
Qed.

Lemma candidate_fields (t : DateTime.t) :
  let n1 := DateTime.add_minutes 1 (DateTime.replace_second_microsecond t) in
  0 <= DateTime.minute n1 < 60 /\ 0 <= DateTime.hour n1 < 24
  /\ DateTime.second n1 = 0 /\ DateTime.microsecond n1 = 0.
Proof.
  cbv zeta.
  destruct (add_minutes_fields 1 (DateTime.replace_second_microsecond t))
    as (Em & Eh & Es & Eu).
  rewrite Em, Eh, Es, Eu.
  split; [apply Z.mod_pos_bound; lia|].
  split; [apply Z.mod_pos_bound; lia|]. split; reflexivity.
Qed.

Lemma monthesrange_same (y m : Z) : Py.sum (monthesrange y m m) = 0.
Proof.
  unfold monthesrange, Py.range2. cbv zeta.
  replace (Z.to_nat (m - 1 - (m - 1))) with 0%nat by lia. reflexivity.
Qed.


(** When the minute after [t] (with the seconds dropped) satisfies
    [validate], [next_valid_date] returns exactly that minute.  This holds
    for a well-formed spec whose five sets are ascending, whose
    day-of-month set is not empty, and whose day-of-week set holds 0
    whenever it holds 7. *)
Theorem next_valid_date_returns_valid_next_minute
  (c : CronSpec.t) (t : DateTime.t) :
  well_formed c ->
  StronglySorted Z.le (CronSpec.minute c) ->
  StronglySorted Z.le (CronSpec.hour c) ->
  StronglySorted Z.le (CronSpec.dom c) ->
  StronglySorted Z.le (CronSpec.month c) ->
  StronglySorted Z.le (CronSpec.dow c) ->
  CronSpec.dom c <> [] ->
  (In 7 (CronSpec.dow c) -> In 0 (CronSpec.dow c)) ->
  date_valid t ->
  CronSpec.validate c
    (DateTime.add_minutes 1 (DateTime.replace_second_microsecond t)) = true ->
  CronSpec.next_valid_date c t
  = Ok (DateTime.add_minutes 1 (DateTime.replace_second_microsecond t)).
Proof.
  intros [Wm Wme Wh Whe Wd Wmo Wmoe Ww Wwe] Sm Sh Sd Smo Sw Hdom H70 Ht Hv.
  set (n1 := DateTime.add_minutes 1 (DateTime.replace_second_microsecond t))
    in *.
  destruct (candidate_fields t) as (Rm & Rh & _). fold n1 in Rm, Rh.
  assert (V1 : date_valid n1) by (apply add_minutes_valid; exact Ht).
  apply validate_true in Hv as (Hmin & Hhour & Hmonth & Hday).
  apply contains_In in Hmin, Hhour, Hmonth.
  (* the searches *)
  assert (H1 : first (fun x => x >=? DateTime.minute n1) (CronSpec.minute_e c)
               = Ok (DateTime.minute n1)).
  { destruct Wme as (m0 & _ & ->). apply first_ge_self; assumption. }
  assert (E2 : DateTime.add_minutes
                 (DateTime.minute n1 - DateTime.minute n1) n1 = n1).
  { rewrite Z.sub_diag. apply add_minutes_0; assumption. }
  assert (H2 : first (fun x => x >=? DateTime.hour n1) (CronSpec.hour_e c)
               = Ok (DateTime.hour n1)).
  { destruct Whe as (h0 & _ & ->). apply first_ge_self; assumption. }
  assert (E3 : DateTime.add_hours (DateTime.hour n1 - DateTime.hour n1) n1
               = n1).
  { rewrite Z.sub_diag. apply add_hours_0; assumption. }
  set (last_dow := DateTime.isoweekday n1 mod 7).
  assert (Rdow : 0 <= last_dow < 7) by (apply Z.mod_pos_bound; lia).
  destruct (first_extended 7 0 7 last_dow _ _ Ww Wwe ltac:(lia))
    as (x3 & H3 & Hx3).
  set (month_days := snd (monthrange (DateTime.year n1) (DateTime.month n1))).
  destruct (CronSpec.dom c) as [|d0 r] eqn:Ed; [contradiction|].
  assert (Hde : CronSpec.dom_e c month_days
                = Ok (filter (fun x => x <=? month_days) (d0 :: r)
                      ++ [month_days + d0])%list).
  { unfold CronSpec.dom_e. cbv zeta. rewrite Ed, getitem_cons_0. reflexivity. }
  destruct (first_sentinel (DateTime.day n1) (month_days + d0)
              (filter (fun x => x <=? month_days) (d0 :: r)))
    as (x4 & H4).
  { apply Forall_inv in Wd. destruct V1 as [_ Hd]. subst month_days.
    simpl. lia. }
  pose proof (proj1 (first_Ok_ge _ _ _ H4)) as Hx4.
  (* a day that is in the set is found at once *)
  assert (Hdom0 : In (DateTime.day n1) (d0 :: r) -> x4 = DateTime.day n1).
  { intros Hin.
    rewrite first_ge_self_filter in H4; [congruence | exact Sd | exact Hin |].
    apply Z.leb_le. destruct V1 as [_ Hd]. subst month_days. simpl. lia. }
  assert (Hdow0 : In (DateTime.isoweekday n1) (CronSpec.dow c) ->
                  x3 = last_dow).
  { intros Hin. destruct Wwe as (w0 & _ & Ewe). rewrite Ewe in H3.
    rewrite first_ge_self in H3; [congruence | exact Sw |].
    pose proof (isoweekday_range n1) as Hr. subst last_dow.
    destruct (Z.eq_dec (DateTime.isoweekday n1) 7) as [E7 | E7].
    - rewrite E7 in *. apply H70. exact Hin.
    - rewrite Z.mod_small by lia. exact Hin. }
  assert (Hdelay :
            (if CronSpec.is_dow_restricted c && CronSpec.is_dom_restricted c
             then Z.min (x3 - last_dow) (x4 - DateTime.day n1)
             else if CronSpec.is_dow_restricted c then x3 - last_dow
                  else x4 - DateTime.day n1) = 0).
  { destruct (CronSpec.is_dow_restricted c && CronSpec.is_dom_restricted c).
    - apply orb_true_iff in Hday as [Hday | Hday]; apply contains_In in Hday.
      + rewrite (Hdom0 Hday). lia.
      + rewrite (Hdow0 Hday). lia.
    - destruct Hday as [Hd Hw]. apply contains_In in Hd, Hw.
      rewrite (Hdom0 Hd), (Hdow0 Hw).
      destruct (CronSpec.is_dow_restricted c); lia. }
  assert (H5 : first (fun x => x >=? DateTime.month n1) (CronSpec.month_e c)
               = Ok (DateTime.month n1)).
  { destruct Wmoe as (mo0 & _ & ->). apply first_ge_self; assumption. }
  pose proof (next_valid_date_from_steps c t
                (DateTime.minute n1) (DateTime.hour n1) x3
                (filter (fun x => x <=? month_days) (d0 :: r)
                 ++ [month_days + d0])%list x4 (DateTime.month n1)) as Hrun.
  cbv zeta in Hrun. fold n1 in Hrun.
  rewrite E2, E3 in Hrun. fold last_dow month_days in Hrun.
  rewrite Hdelay, add_days_0 in Hrun.
  rewrite monthesrange_same, add_days_0 in Hrun.
  apply Hrun; assumption.
Qed.

Lemma next_valid_date_returns_valid_next_minute_witness :
  exists c,
    CronSpec.parse "* * * * *" = Ok c
    /\ CronSpec.next_valid_date c (DateTime.mk 2024 6 1 0 0 0 0)
       = Ok (DateTime.add_minutes 1
               (DateTime.replace_second_microsecond
                  (DateTime.mk 2024 6 1 0 0 0 0))).
Proof.
  eexists. split; [vm_compute; reflexivity|].
  apply next_valid_date_returns_valid_next_minute.
  - constructor; cbn;
      first [ solve [repeat constructor; lia]
            | eexists; split; reflexivity ].
  - cbn. repeat constructor; lia.
  - cbn. repeat constructor; lia.
  - cbn. repeat constructor; lia.
  - cbn. repeat constructor; lia.
  - cbn. repeat constructor; lia.
  - discriminate.
  - intros _. cbn. auto.
  - unfold date_valid. cbn. lia.
  - vm_compute. reflexivity.
Defined.

(** ** [next_valid_date]: specs of every month *)

Lemma validate_intro (c : CronSpec.t) (d : DateTime.t) :
  In (DateTime.minute d) (CronSpec.minute c) ->
  In (DateTime.hour d) (CronSpec.hour c) ->
  In (DateTime.month d) (CronSpec.month c) ->
  (if CronSpec.is_dow_restricted c && CronSpec.is_dom_restricted c
   then In (DateTime.day d) (CronSpec.dom c)
        \/ In (DateTime.isoweekday d) (CronSpec.dow c)
   else In (DateTime.day d) (CronSpec.dom c)
        /\ In (DateTime.isoweekday d) (CronSpec.dow c)) ->
  CronSpec.validate c d = true.
Proof.
  intros Hm Hh Hmo Hday. apply contains_In in Hm, Hh, Hmo.
  unfold CronSpec.validate. rewrite Hm, Hh, Hmo. cbn [negb]. cbv zeta.
  destruct (CronSpec.is_dow_restricted c && CronSpec.is_dom_restricted c).
  - rewrite <- !contains_In in Hday. apply orb_true_iff in Hday.
    rewrite Hday. reflexivity.
  - destruct Hday as [Hd Hw]. apply contains_In in Hd, Hw.
    rewrite Hd, Hw. reflexivity.
Qed.











(** ** [validate]: the day rule outside the both-restricted case *)

(** When the day-of-month and day-of-week sets are not both restricted,
    [validate] accepts a date exactly when all five of its fields are in
    their sets: the minute, the hour, the month, the day of the month and
    the ISO weekday (1 to 7).  An unrestricted set is looked up like a
    restricted one. *)
Theorem validate_is_conjunction_unless_both_restricted
  (c : CronSpec.t) (d : DateTime.t) :
  CronSpec.is_dow_restricted c && CronSpec.is_dom_restricted c = false ->
  (CronSpec.validate c d = true <->
   In (DateTime.minute d) (CronSpec.minute c)
   /\ In (DateTime.hour d) (CronSpec.hour c)
   /\ In (DateTime.month d) (CronSpec.month c)
   /\ In (DateTime.day d) (CronSpec.dom c)
   /\ In (DateTime.isoweekday d) (CronSpec.dow c)).
Proof.
  intros Hr. split.
  - intros H. apply validate_true in H as (Hm & Hh & Hmo & Hday).
    rewrite Hr in Hday. rewrite <- !contains_In. tauto.
  - intros (Hm & Hh & Hmo & Hd & Hw). apply validate_intro; try assumption.
    rewrite Hr. auto.
Qed.

(** The seven values 0 to 6 leave the spec unrestricted, and a Sunday
    (ISO weekday 7) is then refused. *)
Lemma validate_is_conjunction_unless_both_restricted_witness :
  exists c,
    CronSpec.parse "* * * * 0-6" = Ok c
    /\ (CronSpec.validate c (at_minute 2024 1 7 0 0) = true <->
        In 0 (CronSpec.minute c) /\ In 0 (CronSpec.hour c)
        /\ In 1 (CronSpec.month c) /\ In 7 (CronSpec.dom c)
        /\ In 7 (CronSpec.dow c)).
Proof.
  eexists. split; [vm_compute; reflexivity|].
  apply (validate_is_conjunction_unless_both_restricted _
           (at_minute 2024 1 7 0 0)).
  reflexivity.
Defined.

(** ** [setup]: which calls raise, and what a raising call leaves *)

(** [setup] raises exactly when one of the lists given for the minutes,
    hours, months or days of the week is empty (an empty day-of-month list
    is accepted), and the exception is [IndexError].  A raising call
    leaves the stored source text as it was, although the attributes
    assigned before the failure keep their new values: the minute set is
    the given one whatever the outcome. *)
Theorem setup_raises_only_on_empty_list
  (m h dom month dow : option (list Z)) (s : CronSpec.t) :
  let r := CronSpec.setup m h dom month dow s in
  (r.1 = Ok tt <->
   m <> Some [] /\ h <> Some [] /\ month <> Some [] /\ dow <> Some [])
  /\ (forall e, r.1 = Raise e ->
        e = IndexError
        /\ CronSpec.parsed_from r.2 = CronSpec.parsed_from s)
  /\ (forall v, m = Some v -> CronSpec.minute r.2 = v).
Proof.
  unfold_setup.
  destruct m as [[|m0 m]|], h as [[|h0 h]|], dom as [dom|],
    month as [[|month0 month]|], dow as [[|dow0 dow]|];
    rewrite ?getitem_cons_0; cbn;
    (split; [split; [intros H; try discriminate H;
                     repeat split; discriminate
                    | intros (H1 & H2 & H3 & H4);
                      try reflexivity;
                      first [ exfalso; apply H1; reflexivity
                            | exfalso; apply H2; reflexivity
                            | exfalso; apply H3; reflexivity
                            | exfalso; apply H4; reflexivity ] ]
            | split; [intros e H; try discriminate H;
                      injection H as <-; split; reflexivity
                     | intros v H; try discriminate H;
                       injection H as <-; reflexivity ] ]).
Qed.

(** A failing [setup] on a parsed spec: the minutes are replaced, the
    text is not cleared. *)
Lemma setup_raises_only_on_empty_list_witness :
  exists c,
    CronSpec.parse "0 0 * * *" = Ok c
    /\ (CronSpec.setup (Some [30]) (Some []) None None None c).1
       = Raise IndexError
    /\ CronSpec.parsed_from
         (CronSpec.setup (Some [30]) (Some []) None None None c).2
       = CronSpec.parsed_from c
    /\ CronSpec.minute
         (CronSpec.setup (Some [30]) (Some []) None None None c).2 = [30].
Proof.
  eexists. split; [vm_compute; reflexivity|].
  split; [reflexivity|]. split.
  - apply (proj1 (proj2 (setup_raises_only_on_empty_list
                           (Some [30]) (Some []) None None None _))
             IndexError).
    reflexivity.
  - apply (proj2 (proj2 (setup_raises_only_on_empty_list
                           (Some [30]) (Some []) None None None _))).
    reflexivity.
Defined.

(** ** Aliases and [__eq__] *)

Lemma named_spec_entries (k v : string) :
  CronSpec._named_spec !! k = Some v ->
  In (k, v)
     [("@yearly", "0 0 1 1 *"); ("@annually", "0 0 1 1 *");
      ("@monthly", "0 0 1 * *"); ("@weekly", "0 0 * * 0");
      ("@daily", "0 0 * * *"); ("@midnight", "0 0 * * *");
      ("@hourly", "0 * * * *")].
Proof.
  intros H. apply list_elem_of_In.
  apply (elem_of_list_to_map_2 (M := gmap string)) in H. exact H.
Qed.

(** A text that is (up to surrounding whitespace) one of the aliases parses
    to a spec that [__eq__] finds equal to the spec parsed from the alias's
    five-field expansion; each keeps the text it was parsed from as its
    string conversion. *)
Theorem alias_equals_its_expansion (x v : string) :
  CronSpec._named_spec !! Py.strip x = Some v ->
  exists c c',
    CronSpec.parse x = Ok c /\ CronSpec.parse v = Ok c'
    /\ CronSpec.__eq__ c c' = true
    /\ CronSpec.__str__ c = Ok x /\ CronSpec.__str__ c' = Ok v.
Proof.
  intros H. apply named_spec_entries in H.
  remember (CronSpec.parse x) as px eqn:E.
  unfold CronSpec.parse, CronSpec.fields_of in E.
  simpl in H.
  repeat (destruct H as [H | H];
          [injection H as Hk <-; rewrite <- Hk in E; vm_compute in E;
           subst px; eexists _, _; split; [reflexivity|];
           split; [vm_compute; reflexivity|];
           split; [vm_compute; reflexivity|]; split; reflexivity
          |]).
  destruct H.
Qed.

Lemma alias_equals_its_expansion_witness :
  exists c c',
    CronSpec.parse "  @daily " = Ok c /\ CronSpec.parse "0 0 * * *" = Ok c'
    /\ CronSpec.__eq__ c c' = true
    /\ CronSpec.__str__ c = Ok "  @daily "
    /\ CronSpec.__str__ c' = Ok "0 0 * * *".
Proof.
  apply alias_equals_its_expansion. vm_compute. reflexivity.
Defined.

(** ** The derived text: when [__str__] of a modified spec is defined *)

Lemma format_intervals_None (groups : list (Z * Z)) :
  exists parts, format_intervals groups None = Ok parts.
Proof.
  induction groups as [|[a b] rest (parts & IH)]; simpl; [eauto|].
  unfold format_interval. destruct (b =? a); simpl; rewrite IH; simpl; eauto.
Qed.

Lemma format_cron_None (values : list Z) (lo hi : Z) :
  values <> [] -> exists s, format_cron values lo hi None = Ok s.
Proof.
  destruct values as [|v rest]; [contradiction|]. intros _.
  unfold format_cron. rewrite getitem_cons_0. cbn [bind].
  assert (Hlast : exists vl, Py.getitem (v :: rest) (-1) = Ok vl).
  { unfold Py.getitem. cbn [Z.ltb Z.compare].
    assert (E : (0 <=? -1 + Z.of_nat (length (v :: rest)))
                && (-1 + Z.of_nat (length (v :: rest))
                    <? Z.of_nat (length (v :: rest))) = true).
    { apply andb_true_intro. split; [apply Z.leb_le | apply Z.ltb_lt];
        simpl length; lia. }
    rewrite E.
    destruct (nth_error (v :: rest)
                (Z.to_nat (-1 + Z.of_nat (length (v :: rest))))) eqn:En;
      [eauto|].
    apply nth_error_None in En. simpl length in En. lia. }
  destruct Hlast as (vl & Hvl).
  assert (Hfull : exists full,
             (if lo =? v
              then bind (Py.getitem (v :: rest) (-1))
                        (fun vl => Ok (vl =? hi))
              else Ok false) = Ok full).
  { destruct (lo =? v); [rewrite Hvl; simpl|]; eauto. }
  destruct Hfull as (full & ->). cbn [bind].
  destruct full; [eauto|].
  unfold group_intervals. rewrite getitem_cons_0. cbn [bind].
  destruct (format_intervals_None (group_intervals_loop v v (tail (v :: rest))))
    as (parts & ->).
  cbn [bind]. eauto.
Qed.

Lemma group_intervals_loop_starts (values : list Z) (start last : Z) :
  Forall (fun g => In (fst g) (start :: values))
         (group_intervals_loop start last values).
Proof.
  revert start last. induction values as [|v rest IH]; intros start last.
  - simpl. constructor; [simpl; auto | constructor].
  - cbn [group_intervals_loop]. cbv zeta. destruct (v - last >? 1).
    + constructor; [simpl; auto|].
      eapply List.Forall_impl; [|apply IH].
      intros g Hg. simpl in Hg |- *. tauto.
    + eapply List.Forall_impl; [|apply IH].
      intros g Hg. simpl in Hg |- *. tauto.
Qed.

Lemma getitem_day_names (a : Z) :
  0 <= a <= 7 -> exists s, Py.getitem CronSpec.day_names a = Ok s.
Proof.
  intros H.
  assert (Hc : a = 0 \/ a = 1 \/ a = 2 \/ a = 3 \/ a = 4 \/ a = 5 \/ a = 6
               \/ a = 7) by lia.
  repeat (destruct Hc as [-> | Hc]; [eexists; reflexivity|]).
  subst. eexists. reflexivity.
Qed.

Lemma format_intervals_day_names (groups : list (Z * Z)) :
  Forall (fun g => 0 <= fst g <= 7) groups ->
  exists parts, format_intervals groups (Some CronSpec.day_names) = Ok parts.
Proof.
  induction 1 as [|[a b] rest Ha _ (parts & IH)]; simpl; [eauto|].
  unfold format_interval. simpl in Ha. destruct (b =? a).
  - destruct (getitem_day_names a Ha) as (s & ->). simpl.
    rewrite IH. simpl. eauto.
  - cbn [CronSpec.day_names]. cbn [bind]. rewrite IH. simpl. eauto.
Qed.

Lemma format_cron_day_names (values : list Z) :
  values <> [] -> within 0 7 values ->
  exists s, format_cron values 0 7 (Some CronSpec.day_names) = Ok s.
Proof.
  destruct values as [|v rest]; [contradiction|]. intros _ Hw.
  destruct (format_cron_None (v :: rest) 0 7 ltac:(discriminate)) as (s0 & H0).
  unfold format_cron in *. rewrite getitem_cons_0 in *. cbn [bind] in *.
  destruct (if 0 =? v
            then bind (Py.getitem (v :: rest) (-1)) (fun vl => Ok (vl =? 7))
            else Ok false) as [full|e]; [|discriminate].
  cbn [bind] in *. destruct full; [eauto|].
  unfold group_intervals in *. rewrite getitem_cons_0 in *. cbn [bind tail] in *.
  destruct (format_intervals_day_names (group_intervals_loop v v rest))
    as (parts & ->).
  - eapply List.Forall_impl; [|apply group_intervals_loop_starts].
    intros g Hg. unfold within in Hw. rewrite List.Forall_forall in Hw.
    apply Hw, Hg.
  - cbn [bind]. eauto.
Qed.

(** For a spec whose sets lie in their domains, the text that [__str__]
    derives once the source text is gone is defined exactly when the
    day-of-month set is not empty; with an empty day-of-month set the
    conversion raises [IndexError]. *)
Theorem derived_text_defined_iff_dom_not_empty (c : CronSpec.t) :
  well_formed c ->
  ((exists s, CronSpec.derived_text c = Ok s) <-> CronSpec.dom c <> [])
  /\ (CronSpec.dom c = [] -> CronSpec.derived_text c = Raise IndexError).
Proof.
  intros [Wm Wme Wh Whe Wd Wmo Wmoe Ww Wwe].
  assert (Nm : CronSpec.minute c <> []).
  { destruct Wme as (x & Hx & _). intros E. rewrite E in Hx. discriminate. }
  assert (Nh : CronSpec.hour c <> []).
  { destruct Whe as (x & Hx & _). intros E. rewrite E in Hx. discriminate. }
  assert (Nmo : CronSpec.month c <> []).
  { destruct Wmoe as (x & Hx & _). intros E. rewrite E in Hx. discriminate. }
  assert (Nw : CronSpec.dow c <> []).
  { destruct Wwe as (x & Hx & _). intros E. rewrite E in Hx. discriminate. }
  destruct (format_cron_None (CronSpec.minute c) 0 59 Nm) as (a & Ha).
  destruct (format_cron_None (CronSpec.hour c) 0 23 Nh) as (b & Hb).
  destruct (format_cron_None (CronSpec.month c) 1 12 Nmo) as (d & Hd).
  destruct (format_cron_day_names (CronSpec.dow c) Nw Ww) as (e & He).
  unfold CronSpec.derived_text. rewrite Ha, Hb. cbn [bind].
  destruct (CronSpec.dom c) as [|d0 r] eqn:Ed.
  - split; [|reflexivity]. split; [|intros H; contradiction].
    intros (s & Hs). discriminate.
  - destruct (format_cron_None (d0 :: r) 1 31 ltac:(discriminate))
      as (x & ->).
    cbn [bind]. rewrite Hd, He. cbn [bind].
    split; [|discriminate]. split; [discriminate | eauto].
Qed.

Lemma derived_text_defined_iff_dom_not_empty_witness :
  exists c,
    CronSpec.parse "* * 5-1 * *" = Ok c
    /\ CronSpec.derived_text c = Raise IndexError.
Proof.
  eexists. split; [vm_compute; reflexivity|].
  apply derived_text_defined_iff_dom_not_empty.
  - constructor; cbn;
      first [ solve [repeat constructor; lia]
            | eexists; split; reflexivity ].
  - reflexivity.
Defined.

(** ** A spec with an empty day-of-month set *)



(** ** Decimal numerals: [str] and [int] *)

Lemma int_digits_digit (c : ascii) (r : string) (acc : Z) (prev : bool) :
  Py.isdigit c = true ->
  Py.int_digits acc prev (String c r)
  = Py.int_digits (10 * acc + Py.digit_value c) true r.
Proof. intros H. simpl. rewrite H. reflexivity. Qed.

Lemma uint_every_digit (d : Decimal.uint) :
  every_char Py.isdigit (NilEmpty.string_of_uint d) = true.
Proof. induction d; simpl; try rewrite IHd; reflexivity. Qed.

Lemma int_digits_acc (d : Decimal.uint) (acc : positive) :
  Py.int_digits (Zpos acc) true (NilEmpty.string_of_uint d)
  = Ok (Zpos (Pos.of_uint_acc d acc)).
Proof.
  revert acc. induction d; intros acc; cbn [NilEmpty.string_of_uint];
    [reflexivity | ..];
    rewrite int_digits_digit by reflexivity;
    cbn [Pos.of_uint_acc]; rewrite <- IHd; f_equal;
    unfold Py.digit_value;
    match goal with
    | |- context [Z.of_nat (nat_of_ascii ?c)] =>
        let v := eval vm_compute in (Z.of_nat (nat_of_ascii c)) in
        change (Z.of_nat (nat_of_ascii c)) with v
    end; lia.
Qed.

Lemma int_digits_uint (d : Decimal.uint) (prev : bool) :
  d <> Decimal.Nil \/ prev = true ->
  Py.int_digits 0 prev (NilEmpty.string_of_uint d)
  = Ok (Z.of_N (Pos.of_uint d)).
Proof.
  revert prev. induction d; intros prev H; cbn [NilEmpty.string_of_uint].
  - destruct H as [H | ->]; [contradiction | reflexivity].
  - rewrite int_digits_digit by reflexivity.
    change (10 * 0 + Py.digit_value "0") with 0.
    rewrite IHd by (right; reflexivity). reflexivity.
  - rewrite int_digits_digit by reflexivity.
    change (10 * 0 + Py.digit_value "1") with (Zpos 1).
    rewrite int_digits_acc. reflexivity.
  - rewrite int_digits_digit by reflexivity.
    change (10 * 0 + Py.digit_value "2") with (Zpos 2).
    rewrite int_digits_acc. reflexivity.
  - rewrite int_digits_digit by reflexivity.
    change (10 * 0 + Py.digit_value "3") with (Zpos 3).
    rewrite int_digits_acc. reflexivity.
  - rewrite int_digits_digit by reflexivity.
    change (10 * 0 + Py.digit_value "4") with (Zpos 4).
    rewrite int_digits_acc. reflexivity.
  - rewrite int_digits_digit by reflexivity.
    change (10 * 0 + Py.digit_value "5") with (Zpos 5).
    rewrite int_digits_acc. reflexivity.
  - rewrite int_digits_digit by reflexivity.
    change (10 * 0 + Py.digit_value "6") with (Zpos 6).
    rewrite int_digits_acc. reflexivity.
  - rewrite int_digits_digit by reflexivity.
    change (10 * 0 + Py.digit_value "7") with (Zpos 7).
    rewrite int_digits_acc. reflexivity.
  - rewrite int_digits_digit by reflexivity.
    change (10 * 0 + Py.digit_value "8") with (Zpos 8).
    rewrite int_digits_acc. reflexivity.
  - rewrite int_digits_digit by reflexivity.
    change (10 * 0 + Py.digit_value "9") with (Zpos 9).
    rewrite int_digits_acc. reflexivity.
Qed.

Lemma isdigit_cases (c : ascii) :
  Py.isdigit c = true ->
  In c ["0"; "1"; "2"; "3"; "4"; "5"; "6"; "7"; "8"; "9"]%char.
Proof.
  destruct c as [[] [] [] [] [] [] [] []]; intros H;
    try discriminate H; simpl;
    repeat (first [left; reflexivity | right]).
Qed.

Lemma isdigit_not_space (c : ascii) :
  Py.isdigit c = true -> Py.isspace c = false.
Proof.
  intros H. apply isdigit_cases in H. simpl in H.
  repeat (destruct H as [<- | H]; [reflexivity|]). destruct H.
Qed.

Lemma lstrip_digits (s : string) :
  every_char Py.isdigit s = true -> Py.lstrip s = s.
Proof.
  destruct s as [|c r]; [reflexivity|]. simpl. intros H.
  apply andb_prop in H as [Hc _]. rewrite (isdigit_not_space c Hc).
  reflexivity.
Qed.

Lemma rstrip_digits (s : string) :
  every_char Py.isdigit s = true -> Py.rstrip s = s.
Proof.
  induction s as [|c r IH]; [reflexivity|]. simpl. intros H.
  apply andb_prop in H as [Hc Hr]. rewrite (IH Hr).
  rewrite (isdigit_not_space c Hc). destruct r; reflexivity.
Qed.

Lemma int_of_digits (s : string) :
  every_char Py.isdigit s = true -> Py.int s = Py.int_digits 0 false s.
Proof.
  intros H. unfold Py.int, Py.strip.
  rewrite lstrip_digits, rstrip_digits by exact H.
  destruct s as [|c r]; [reflexivity|].
  simpl in H. apply andb_prop in H as [Hc _].
  apply isdigit_cases in Hc. simpl in Hc.
  repeat (destruct Hc as [<- | Hc]; [reflexivity|]). destruct Hc.
Qed.

Lemma str_nonneg (n : Z) :
  0 <= n ->
  exists d, d <> Decimal.Nil /\ Py.str n = NilEmpty.string_of_uint d
            /\ Z.of_N (Pos.of_uint d) = n.
Proof.
  intros Hn. destruct n as [|p|p]; [| |lia].
  - exists (Decimal.D0 Decimal.Nil). repeat split. discriminate.
  - exists (Pos.to_uint p). split; [apply Unsigned.to_uint_nonnil|].
    split.
    + unfold Py.str. simpl. unfold NilZero.string_of_uint.
      pose proof (Unsigned.to_uint_nonnil p) as Hnn.
      destruct (Pos.to_uint p); [contradiction | reflexivity ..].
    + rewrite Unsigned.of_to. reflexivity.
Qed.

Lemma str_every_digit (n : Z) :
  0 <= n -> every_char Py.isdigit (Py.str n) = true.
Proof.
  intros Hn. destruct (str_nonneg n Hn) as (d & _ & -> & _).
  apply uint_every_digit.
Qed.

Lemma str_not_empty (n : Z) : 0 <= n -> Py.str n <> "".
Proof.
  intros Hn. destruct (str_nonneg n Hn) as (d & Hd & -> & _).
  destruct d; [contradiction | discriminate ..].
Qed.

Lemma int_str (n : Z) : 0 <= n -> Py.int (Py.str n) = Ok n.
Proof.
  intros Hn. rewrite int_of_digits by (apply str_every_digit; exact Hn).
  destruct (str_nonneg n Hn) as (d & Hd & -> & <-).
  apply int_digits_uint. left. exact Hd.
Qed.

(** ** Texts without a separator *)

Lemma every_char_impl (P Q : ascii -> bool) (s : string) :
  (forall c, P c = true -> Q c = true) ->
  every_char P s = true -> every_char Q s = true.
Proof.
  intros HPQ. induction s as [|c r IH]; simpl; [reflexivity|].
  intros H. apply andb_prop in H as [Hc Hr].
  rewrite (HPQ c Hc), (IH Hr). reflexivity.
Qed.

Lemma every_char_app (P : ascii -> bool) (a b : string) :
  every_char P (String.append a b) = every_char P a && every_char P b.
Proof.
  induction a as [|c r IH]; simpl; [reflexivity|].
  rewrite IH, andb_assoc. reflexivity.
Qed.

Lemma digits_without (sep : ascii) (s : string) :
  Py.isdigit sep = false ->
  every_char Py.isdigit s = true ->
  every_char (fun c => negb (Ascii.eqb c sep)) s = true.
Proof.
  intros Hsep. apply every_char_impl. intros c Hc.
  destruct (Ascii.eqb_spec c sep) as [-> | _]; [congruence | reflexivity].
Qed.

Lemma partition_none (sep : ascii) (s : string) :
  every_char (fun c => negb (Ascii.eqb c sep)) s = true ->
  Py.partition sep s = (s, EmptyString, EmptyString).
Proof.
  induction s as [|c r IH]; simpl; [reflexivity|]. intros H.
  apply andb_prop in H as [Hc Hr]. apply negb_true_iff in Hc.
  rewrite Hc, (IH Hr). reflexivity.
Qed.

Lemma partition_app (sep : ascii) (a b : string) :
  every_char (fun c => negb (Ascii.eqb c sep)) a = true ->
  Py.partition sep (String.append a (String sep b))
  = (a, String sep EmptyString, b).
Proof.
  induction a as [|c r IH]; simpl.
  - intros _. rewrite Ascii.eqb_refl. reflexivity.
  - intros H. apply andb_prop in H as [Hc Hr]. apply negb_true_iff in Hc.
    rewrite Hc, (IH Hr). reflexivity.
Qed.

Lemma split_on_none (sep : ascii) (s : string) :
  every_char (fun c => negb (Ascii.eqb c sep)) s = true ->
  Py.split_on sep s = [s].
Proof.
  induction s as [|c r IH]; simpl; [reflexivity|]. intros H.
  apply andb_prop in H as [Hc Hr]. apply negb_true_iff in Hc.
  rewrite Hc, (IH Hr). reflexivity.
Qed.

Lemma split_on_app (sep : ascii) (a b : string) :
  every_char (fun c => negb (Ascii.eqb c sep)) a = true ->
  Py.split_on sep (String.append a (String sep b)) = a :: Py.split_on sep b.
Proof.
  induction a as [|c r IH]; simpl.
  - intros _. rewrite Ascii.eqb_refl. reflexivity.
  - intros H. apply andb_prop in H as [Hc Hr]. apply negb_true_iff in Hc.
    rewrite Hc, (IH Hr). reflexivity.
Qed.

Lemma split_on_join (sep : ascii) (parts : list string) :
  parts <> [] ->
  Forall (fun p => every_char (fun c => negb (Ascii.eqb c sep)) p = true)
         parts ->
  Py.split_on sep (Py.join (String sep EmptyString) parts) = parts.
Proof.
  intros Hne Hall. induction Hall as [|p rest Hp Hrest IH]; [contradiction|].
  destruct rest as [|q rest'].
  - simpl. apply split_on_none, Hp.
  - change (Py.join (String sep EmptyString) (p :: q :: rest'))
      with (String.append p
              (String sep (Py.join (String sep EmptyString) (q :: rest')))).
    rewrite split_on_app by exact Hp. f_equal. apply IH. discriminate.
Qed.

Lemma every_char_join (P : ascii -> bool) (sep : string) (parts : list string) :
  every_char P sep = true ->
  Forall (fun p => every_char P p = true) parts ->
  every_char P (Py.join sep parts) = true.
Proof.
  intros Hsep Hall. induction Hall as [|p rest Hp Hrest IH]; [reflexivity|].
  destruct rest as [|q rest'].
  - simpl. exact Hp.
  - change (Py.join sep (p :: q :: rest'))
      with (String.append p (String.append sep (Py.join sep (q :: rest')))).
    rewrite !every_char_app, Hp, Hsep, IH. reflexivity.
Qed.

Lemma replace_none (old_c : ascii) (new s : string) :
  every_char (fun c => negb (Ascii.eqb c old_c)) s = true ->
  Py.replace (String old_c EmptyString) new s = s.
Proof.
  unfold Py.replace. induction s as [|c r IH]; simpl; [reflexivity|].
  intros H. apply andb_prop in H as [Hc Hr]. apply negb_true_iff in Hc.
  destruct (ascii_dec old_c c) as [-> | _].
  - rewrite Ascii.eqb_refl in Hc. discriminate.
  - rewrite (IH Hr). reflexivity.
Qed.

Lemma append_empty (s : string) : String.append s EmptyString = s.
Proof.
  induction s as [|c r IH]; [reflexivity|].
  change (String.append (String c r) EmptyString)
    with (String c (String.append r EmptyString)).
  f_equal. exact IH.
Qed.

Lemma range_step_1 (a s : Z) : Py.range a s 1 = Ok (Py.range2 a s).
Proof.
  unfold Py.range, Py.range2, Py.range_len. simpl.
  replace (s - a + 1 - 1) with (s - a) by lia. rewrite Z.div_1_r.
  f_equal. apply map_ext. intros i. lia.
Qed.

(** ** The text of an interval, expanded *)

Lemma interval_text_chars (P : ascii -> bool) (g : Z * Z) :
  (forall c, Py.isdigit c = true -> P c = true) -> P "-"%char = true ->
  0 <= fst g -> 0 <= snd g ->
  every_char P (interval_text g) = true.
Proof.
  intros Hd Hm Ha Hb. unfold interval_text.
  assert (Hs : forall n, 0 <= n -> every_char P (Py.str n) = true).
  { intros n Hn. eapply every_char_impl; [exact Hd|].
    apply str_every_digit, Hn. }
  destruct (snd g =? fst g); [apply Hs, Ha|].
  rewrite !every_char_app, (Hs _ Ha), (Hs _ Hb). simpl. rewrite Hm.
  reflexivity.
Qed.

Lemma interval_text_without (sep : ascii) (g : Z * Z) :
  Py.isdigit sep = false -> Ascii.eqb "-" sep = false ->
  0 <= fst g -> 0 <= snd g ->
  every_char (fun c => negb (Ascii.eqb c sep)) (interval_text g) = true.
Proof.
  intros Hsep Hm. apply interval_text_chars.
  - intros c Hc.
    destruct (Ascii.eqb_spec c sep) as [-> | _]; [congruence | reflexivity].
  - rewrite Hm. reflexivity.
Qed.

Lemma expand_interval_text (g : Z * Z) :
  0 <= fst g -> 0 <= snd g ->
  expand_interval (interval_text g) = Ok (Py.range2 (fst g) (snd g + 1)).
Proof.
  intros Ha Hb. unfold expand_interval.
  rewrite partition_none
    by (apply interval_text_without; [reflexivity | reflexivity | lia | lia]).
  change (String.eqb "" "") with true. cbn [bind].
  unfold interval_text. destruct (snd g =? fst g) eqn:E.
  - apply Z.eqb_eq in E.
    rewrite partition_none
      by (apply digits_without; [reflexivity | apply str_every_digit, Ha]).
    rewrite int_str by exact Ha. cbn [bind].
    change (String.eqb "" "") with true. cbn [bind].
    rewrite E. apply range_step_1.
  - change (String.append "-" (Py.str (snd g)))
      with (String "-" (Py.str (snd g))).
    rewrite partition_app
      by (apply digits_without; [reflexivity | apply str_every_digit, Ha]).
    rewrite int_str by exact Ha. cbn [bind].
    assert (Hne : String.eqb "" (Py.str (snd g)) = false).
    { apply String.eqb_neq. intros Heq. symmetry in Heq.
      revert Heq. apply str_not_empty, Hb. }
    rewrite Hne, int_str by exact Hb. cbn [bind].
    apply range_step_1.
Qed.

(** ** [format_cron] followed by [expand_valid] *)

Lemma sorted_lt_le (l : list Z) :
  StronglySorted Z.lt l -> StronglySorted Z.le l.
Proof.
  induction 1 as [|x l Hs IH Hx]; constructor; [exact IH|].
  eapply List.Forall_impl; [|exact Hx]. intros y Hy. simpl in Hy. lia.
Qed.

Lemma sorted_lt_NoDup (l : list Z) : StronglySorted Z.lt l -> NoDup l.
Proof.
  induction 1 as [|x l Hs IH Hx]; constructor; [|exact IH].
  intros Hin. apply list_elem_of_In in Hin.
  rewrite List.Forall_forall in Hx. specialize (Hx x Hin). lia.
Qed.

Lemma sorted_of_members (s : gset Z) (values : list Z) :
  StronglySorted Z.lt values ->
  (forall x, x ∈ s <-> In x values) ->
  Py.sorted s = values.
Proof.
  intros Hs Hmem.
  apply (StronglySorted_unique Z.le).
  - apply sorted_ascending.
  - apply sorted_lt_le, Hs.
  - apply NoDup_Permutation.
    + apply sorted_NoDup.
    + apply sorted_lt_NoDup, Hs.
    + intros x. rewrite !list_elem_of_In, In_sorted. apply Hmem.
Qed.

Lemma range2_sorted (a b : Z) : StronglySorted Z.lt (Py.range2 a b).
Proof.
  unfold Py.range2. generalize (Z.to_nat (b - a)) as n. intros n.
  assert (H : forall k, StronglySorted Z.lt
                          (map (fun i => a + Z.of_nat i) (seq k n))).
  { induction n as [|n IH]; intros k; simpl; constructor; [apply IH|].
    apply List.Forall_forall. intros y Hy.
    apply in_map_iff in Hy as (i & <- & Hi). apply in_seq in Hi. lia. }
  apply H.
Qed.

Lemma format_intervals_text (groups : list (Z * Z)) :
  format_intervals groups None = Ok (map interval_text groups).
Proof.
  induction groups as [|[a b] rest IH]; [reflexivity|].
  cbn [format_intervals map]. rewrite IH.
  unfold format_interval, interval_text. cbn [fst snd].
  destruct (b =? a); reflexivity.
Qed.

Lemma separated_bounds (groups : list (Z * Z)) :
  separated groups -> Forall (fun g => fst g <= snd g) groups.
Proof.
  induction groups as [|g rest IH]; [constructor|].
  intros (Hg & _ & Hrest). constructor; [exact Hg | apply IH, Hrest].
Qed.

(** The expansion of a comma-separated list of interval texts. *)
Lemma expand_valid_interval_texts (groups : list (Z * Z)) (lo hi : Z) :
  groups <> [] ->
  Forall (fun g => 0 <= fst g /\ 0 <= snd g) groups ->
  StronglySorted Z.lt (interval_values groups) ->
  expand_valid (Py.join "," (map interval_text groups)) lo hi
  = Ok (interval_values groups).
Proof.
  intros Hne Hall Hsorted.
  assert (Hparts : forall sep, Py.isdigit sep = false ->
                     Ascii.eqb "-" sep = false ->
                     Forall (fun p => every_char
                                        (fun c => negb (Ascii.eqb c sep)) p
                                      = true)
                            (map interval_text groups)).
  { intros sep Hs Hm. apply List.Forall_forall. intros p Hp.
    apply in_map_iff in Hp as (g & <- & Hg).
    rewrite List.Forall_forall in Hall. destruct (Hall g Hg).
    apply interval_text_without; assumption. }
  unfold expand_valid.
  rewrite replace_none.
  2:{ apply every_char_join; [reflexivity|].
      apply (Hparts "*"%char); reflexivity. }
  rewrite split_on_join.
  2:{ destruct groups; [contradiction | discriminate]. }
  2:{ apply (Hparts ","%char); reflexivity. }
  assert (Hexp : forall piece, In piece (map interval_text groups) ->
                   exists r, expand_interval piece = Ok r).
  { intros piece Hp. apply in_map_iff in Hp as (g & <- & Hg).
    rewrite List.Forall_forall in Hall. destruct (Hall g Hg).
    rewrite expand_interval_text by assumption. eauto. }
  destruct (expand_intervals_total _ ∅ Hexp) as (s & Hs).
  rewrite Hs. cbn [bind]. f_equal.
  apply sorted_of_members; [exact Hsorted|].
  destruct (expand_intervals_Ok _ _ _ Hs) as [_ Hmem].
  intros x. rewrite Hmem. unfold interval_values. rewrite in_flat_map.
  split.
  - intros [Hx | (piece & r & Hp & Hr & Hx)].
    + apply not_elem_of_empty in Hx. contradiction.
    + apply in_map_iff in Hp as (g & <- & Hg). exists g. split; [exact Hg|].
      rewrite List.Forall_forall in Hall. destruct (Hall g Hg).
      rewrite expand_interval_text in Hr by assumption. congruence.
  - intros (g & Hg & Hx). right.
    exists (interval_text g), (Py.range2 (fst g) (snd g + 1)).
    split; [apply in_map, Hg|]. split; [|exact Hx].
    rewrite List.Forall_forall in Hall. destruct (Hall g Hg).
    apply expand_interval_text; assumption.
Qed.

Lemma expand_valid_star (lo hi : Z) :
  0 <= lo -> 0 <= hi ->
  expand_valid "*" lo hi = Ok (Py.range2 lo (hi + 1)).
Proof.
  intros Hlo Hhi. unfold expand_valid.
  set (new := String.append (Py.str lo) (String.append "-" (Py.str hi))).
  assert (E : Py.replace "*" new "*" = new).
  { unfold Py.replace. cbn. apply append_empty. }
  rewrite E.
  assert (Hchars : forall sep, Py.isdigit sep = false ->
                     Ascii.eqb "-" sep = false ->
                     every_char (fun c => negb (Ascii.eqb c sep)) new = true).
  { intros sep Hs Hm. subst new.
    rewrite !every_char_app,
      (digits_without sep _ Hs (str_every_digit lo Hlo)),
      (digits_without sep _ Hs (str_every_digit hi Hhi)).
    cbn [every_char]. rewrite Hm. reflexivity. }
  rewrite split_on_none by (apply Hchars; reflexivity).
  assert (Hexp : expand_interval new = Ok (Py.range2 lo (hi + 1))).
  { unfold expand_interval.
    rewrite partition_none by (apply Hchars; reflexivity).
    change (String.eqb "" "") with true. cbn [bind]. subst new.
    change (String.append "-" (Py.str hi)) with (String "-" (Py.str hi)).
    rewrite partition_app
      by (apply digits_without; [reflexivity | apply str_every_digit, Hlo]).
    rewrite int_str by exact Hlo. cbn [bind].
    assert (Hne : String.eqb "" (Py.str hi) = false).
    { apply String.eqb_neq. intros Heq. symmetry in Heq.
      revert Heq. apply str_not_empty, Hhi. }
    rewrite Hne, int_str by exact Hhi. cbn [bind]. apply range_step_1. }
  cbn [expand_intervals]. rewrite Hexp. cbn [bind]. f_equal.
  apply sorted_of_members; [apply range2_sorted|].
  intros x. rewrite elem_of_union, elem_of_list_to_set, list_elem_of_In.
  split; [intros [Hx | Hx]; [apply not_elem_of_empty in Hx; contradiction
                            | exact Hx]
         | auto].
Qed.

(** Formatting a field and expanding the text again.  For a strictly
    ascending list of non-negative values, [format_cron] without names
    returns a text.  Unless the list starts at [min_] and ends at [max_],
    [expand_valid] of that text gives the list back.  When it does start
    at [min_] and end at [max_], the text is [*], whatever lies between,
    and [expand_valid] gives every value from [min_] to [max_]. *)
Theorem format_cron_then_expand_valid
  (values : list Z) (lo hi v0 vl : Z) :
  StronglySorted Z.lt values -> Forall (fun x => 0 <= x) values ->
  Py.getitem values 0 = Ok v0 -> Py.getitem values (-1) = Ok vl ->
  exists text,
    format_cron values lo hi None = Ok text
    /\ if (lo =? v0) && (vl =? hi)
       then text = "*"
            /\ expand_valid text lo hi = Ok (Py.range2 lo (hi + 1))
       else expand_valid text lo hi = Ok values.
Proof.
  intros Hs Hpos H0 Hl.
  pose proof H0 as Hcons. apply getitem_0_Ok in Hcons as (rest & ->).
  clear H0.
  assert (Hin_last : In vl (v0 :: rest)).
  { unfold Py.getitem in Hl. cbn [Z.ltb Z.compare] in Hl.
    destruct ((0 <=? -1 + Z.of_nat (length (v0 :: rest)))
              && (-1 + Z.of_nat (length (v0 :: rest))
                  <? Z.of_nat (length (v0 :: rest)))); [|discriminate].
    destruct (nth_error (v0 :: rest)
                (Z.to_nat (-1 + Z.of_nat (length (v0 :: rest))))) eqn:En;
      [|discriminate].
    injection Hl as <-. eapply nth_error_In. exact En. }
  unfold format_cron. rewrite getitem_cons_0. cbn [bind]. rewrite Hl.
  assert (Efull : (if lo =? v0
                   then bind (Ok vl) (fun vl0 => Ok (vl0 =? hi))
                   else Ok false)
                  = Ok ((lo =? v0) && (vl =? hi))).
  { destruct (lo =? v0); reflexivity. }
  rewrite Efull. cbn [bind].
  destruct ((lo =? v0) && (vl =? hi)) eqn:Ef.
  - exists "*". split; [reflexivity|]. split; [reflexivity|].
    apply andb_prop in Ef as [E0 El].
    apply Z.eqb_eq in E0, El. subst lo hi.
    rewrite List.Forall_forall in Hpos.
    apply expand_valid_star; apply Hpos; [now left | exact Hin_last].
  - unfold group_intervals. rewrite getitem_cons_0. cbn [bind tail].
    rewrite format_intervals_text. cbn [bind].
    eexists. split; [reflexivity|].
    destruct (group_intervals_loop_spec rest v0 v0 ltac:(lia) Hs)
      as (Hv & Hsep & stop & rest' & Eg).
    cbv zeta in Hv, Hsep, Eg. rewrite range2_single in Hv.
    change ([v0] ++ rest)%list with (v0 :: rest) in Hv.
    rewrite <- Hv.
    apply expand_valid_interval_texts.
    + rewrite Eg. discriminate.
    + pose proof (separated_bounds _ Hsep) as Hb.
      pose proof (group_intervals_loop_starts rest v0 v0) as Hst.
      rewrite List.Forall_forall in Hb, Hst, Hpos |- *.
      intros g Hg. specialize (Hb g Hg). specialize (Hst g Hg).
      specialize (Hpos _ Hst). lia.
    + rewrite Hv. exact Hs.
Qed.

Lemma format_cron_then_expand_valid_witness :
  exists text,
    format_cron [0; 1; 2; 5; 7; 8] 0 59 None = Ok text
    /\ expand_valid text 0 59 = Ok [0; 1; 2; 5; 7; 8].
Proof.
  apply (format_cron_then_expand_valid [0; 1; 2; 5; 7; 8] 0 59 0 8).
  - repeat constructor; lia.
  - repeat constructor; lia.
  - reflexivity.
  - reflexivity.
Defined.

(** ** [expand_valid]: a range with a step *)

Lemma str_chars_without (sep : ascii) (n : Z) :
  Py.isdigit sep = false -> 0 <= n ->
  every_char (fun c => negb (Ascii.eqb c sep)) (Py.str n) = true.
Proof.
  intros Hs Hn. apply digits_without; [exact Hs | apply str_every_digit, Hn].
Qed.

Lemma str_eqb_empty (n : Z) : 0 <= n -> String.eqb "" (Py.str n) = false.
Proof.
  intros Hn. apply String.eqb_neq. intros Heq. symmetry in Heq.
  revert Heq. apply str_not_empty, Hn.
Qed.

Lemma append_assoc (a b c : string) :
  String.append (String.append a b) c = String.append a (String.append b c).
Proof.
  induction a as [|x r IH]; [reflexivity|].
  change (String x (String.append (String.append r b) c)
          = String x (String.append r (String.append b c))).
  f_equal. exact IH.
Qed.

Lemma expand_interval_step (a b s : Z) :
  0 <= a -> 0 <= b -> 0 <= s ->
  expand_interval
    (String.append (Py.str a)
       (String "-" (String.append (Py.str b) (String "/" (Py.str s)))))
  = Py.range a (b + 1) s.
Proof.
  intros Ha Hb Hs. unfold expand_interval.
  assert (Hashape :
            String.append (Py.str a)
              (String "-" (String.append (Py.str b) (String "/" (Py.str s))))
            = String.append
                (String.append (Py.str a) (String "-" (Py.str b)))
                (String "/" (Py.str s))).
  { change (String "-" (String.append (Py.str b) (String "/" (Py.str s))))
      with (String.append (String "-" (Py.str b)) (String "/" (Py.str s))).
    symmetry. apply append_assoc. }
  rewrite Hashape. rewrite partition_app.
  2:{ rewrite every_char_app, (str_chars_without "/" a eq_refl Ha).
      cbn [every_char].
      rewrite (str_chars_without "/" b eq_refl Hb). reflexivity. }
  rewrite str_eqb_empty, int_str by exact Hs. cbn [bind].
  rewrite partition_app by (apply str_chars_without; [reflexivity | exact Ha]).
  rewrite int_str by exact Ha. cbn [bind].
  rewrite str_eqb_empty, int_str by exact Hb. cbn [bind]. reflexivity.
Qed.

Lemma In_range_step (a stop s x : Z) (l : list Z) :
  1 <= s -> Py.range a stop s = Ok l ->
  (In x l <-> a <= x < stop /\ (x - a) mod s = 0).
Proof.
  intros Hs. unfold Py.range, Py.range_len.
  assert (E0 : (s =? 0) = false) by (apply Z.eqb_neq; lia).
  assert (E1 : (0 <? s) = true) by (apply Z.ltb_lt; lia).
  rewrite E0, E1. intros [= <-]. rewrite in_map_iff. split.
  - intros (i & <- & Hi). apply in_seq in Hi.
    replace (a + Z.of_nat i * s - a) with (Z.of_nat i * s) by lia.
    rewrite Z.mod_mul by lia. split; [|reflexivity].
    destruct (Z_lt_le_dec a stop) as [Hlt | Hge].
    + assert (Hi' : Z.of_nat i < (stop - a + s - 1) / s) by lia.
      assert (Hdiv : s * ((stop - a + s - 1) / s) <= stop - a + s - 1)
        by (apply Z.mul_div_le; lia).
      nia.
    + assert (Hz : (stop - a + s - 1) / s <= 0).
      { apply Z.lt_succ_r. apply Z.div_lt_upper_bound; lia. }
      lia.
  - intros (Hx & Hmod).
    apply Z.mod_divide in Hmod; [|lia]. destruct Hmod as (k & Hk).
    assert (Hk0 : 0 <= k) by nia.
    exists (Z.to_nat k). split; [lia|]. apply in_seq.
    assert (Hlt : k < (stop - a + s - 1) / s).
    { pose proof (Z.div_le_lower_bound (stop - a + s - 1) s (k + 1)
                    ltac:(lia) ltac:(nia)). lia. }
    lia.
Qed.

Lemma replace_star_head (new rest : string) :
  Py.replace "*" new (String "*" rest)
  = String.append new (Py.replace "*" new rest).
Proof.
  unfold Py.replace. cbn [Py.replace_from].
  assert (E : String.prefix "*" (String "*" rest) = true).
  { cbn [String.prefix].
    destruct (ascii_dec "*" "*"); [destruct rest; reflexivity | contradiction]. }
  rewrite E. reflexivity.
Qed.

(** The step of a range is a stride from its start, whatever the bounds
    of the field: for numerals [N], [M] and a step [S] of at least 1, the
    field [N-M/S] expands to exactly the values [N + k*S] between [N] and
    [M], and [*/S] expands to the values [min + k*S] between [min] and
    [max]. *)
Theorem expand_valid_step_is_a_stride (a b s lo hi : Z) :
  0 <= a -> 0 <= b -> 1 <= s ->
  (exists l,
     expand_valid
       (String.append (Py.str a)
          (String "-" (String.append (Py.str b) (String "/" (Py.str s)))))
       lo hi = Ok l
     /\ forall x, In x l <-> a <= x <= b /\ (x - a) mod s = 0)
  /\ (0 <= lo -> 0 <= hi ->
      exists l,
        expand_valid (String "*" (String "/" (Py.str s))) lo hi = Ok l
        /\ forall x, In x l <-> lo <= x <= hi /\ (x - lo) mod s = 0).
Proof.
  intros Ha Hb Hs.
  assert (Hgen : forall a b, 0 <= a -> 0 <= b ->
            forall text,
              text = String.append (Py.str a)
                       (String "-"
                          (String.append (Py.str b) (String "/" (Py.str s)))) ->
              exists l,
                bind (expand_intervals ∅ (Py.split_on "," text))
                     (fun valid => Ok (Py.sorted valid)) = Ok l
                /\ forall x, In x l <-> a <= x <= b /\ (x - a) mod s = 0).
  { clear a b Ha Hb. intros a b Ha Hb text ->.
    rewrite split_on_none.
    2:{ rewrite every_char_app, (str_chars_without "," a eq_refl Ha).
        cbn [every_char].
        rewrite every_char_app, (str_chars_without "," b eq_refl Hb).
        cbn [every_char].
        rewrite (str_chars_without "," s eq_refl ltac:(lia)). reflexivity. }
    cbn [expand_intervals].
    rewrite expand_interval_step by lia.
    destruct (Py.range a (b + 1) s) as [r|e] eqn:Er.
    2:{ unfold Py.range in Er.
        assert (E0 : (s =? 0) = false) by (apply Z.eqb_neq; lia).
        rewrite E0 in Er. discriminate. }
    cbn [bind]. eexists. split; [reflexivity|].
    intros x. rewrite In_sorted, elem_of_union, elem_of_list_to_set,
      list_elem_of_In.
    rewrite (In_range_step a (b + 1) s x r Hs Er).
    split.
    - intros [Hx | Hx]; [apply not_elem_of_empty in Hx; contradiction|].
      split; [lia | tauto].
    - intros [Hx Hm]. right. split; [lia | exact Hm]. }
  split.
  - unfold expand_valid. rewrite replace_none.
    + apply Hgen; [exact Ha | exact Hb | reflexivity].
    + rewrite every_char_app, (str_chars_without "*" a eq_refl Ha).
      cbn [every_char].
      rewrite every_char_app, (str_chars_without "*" b eq_refl Hb).
      cbn [every_char].
      rewrite (str_chars_without "*" s eq_refl ltac:(lia)). reflexivity.
  - intros Hlo Hhi. unfold expand_valid.
    apply Hgen; [exact Hlo | exact Hhi|].
    rewrite replace_star_head, replace_none.
    2:{ cbn [every_char].
        rewrite (str_chars_without "*" s eq_refl ltac:(lia)). reflexivity. }
    change (String.append "-" (Py.str hi)) with (String "-" (Py.str hi)).
    change (String "-" (String.append (Py.str hi) (String "/" (Py.str s))))
      with (String.append (String "-" (Py.str hi)) (String "/" (Py.str s))).
    apply append_assoc.
Qed.

Lemma expand_valid_step_is_a_stride_witness :
  (exists l,
     expand_valid "10-20/3" 0 59 = Ok l
     /\ (In 16 l <-> 10 <= 16 <= 20 /\ (16 - 10) mod 3 = 0)).
Proof.
  destruct (proj1 (expand_valid_step_is_a_stride 10 20 3 0 59
                     ltac:(lia) ltac:(lia) ltac:(lia)))
    as (l & Hl & Hmem).
  exists l. split; [exact Hl | apply Hmem].
Defined.
